(** * TaskManager: the REST handlers of [server.js] over their relational store

    The development follows [src/server.js]:

    - the JavaScript values a parsed JSON body can hold, and the way the
      driver binds them to the [?] placeholders of a statement;
    - the two tables declared by [initDatabase], with the constraints of
      their DDL (primary keys, [NOT NULL], [UNIQUE], the [ENUM] of statuses,
      the foreign key with [ON DELETE CASCADE], the timestamp defaults);
    - the seven statements the file issues and one handler per route, each a
      single [pool.query] inside [try]/[catch];
    - the start-up sequence [initDatabase().then(listen).catch(exit)].

    The relational store is an external collaborator.  Its behaviour is
    modelled as far as the DDL of [initDatabase] fixes it, for a server in
    strict SQL mode: a value that violates a constraint, a text longer than
    its column included, rejects the whole statement.  What the source does
    not fix is left open or out: the server's cast of a text to an integer
    and the wording of its error messages are parameters of the
    development; the range of [INT] is not modelled; texts are compared
    exactly, and the length of a text is its number of characters.

    The requests covered are those whose JSON body is an object with scalar
    fields, its numbers integers that a double holds exactly: a field that
    is itself an object or an array, which the driver would expand into SQL
    text, and a number with a fraction are outside the development.
    [req.body] is the object that [express.json()] leaves there, the empty
    object for a request without a body. *)

From Stdlib Require Import ZArith Ascii String DecimalString.
From stdpp Require Import gmap strings list sorting.

Local Open Scope string_scope.
Local Open Scope Z_scope.

(** ** JavaScript values *)

(** The scalars of a parsed JSON body, and [undefined], which is what
    destructuring yields for an absent field. *)
Inductive jsval :=
  | JUndefined
  | JNull
  | JBool (b : bool)
  | JNum (n : Z)
  | JStr (s : string).

#[global] Instance jsval_eq_dec : EqDecision jsval.
Proof. solve_decision. Defined.

(** A JavaScript object whose fields are scalars: [req.body], [req.params],
    and the object literals handed to [res.json]. *)
Abbreviation jsobj := (gmap string jsval).

(** [const { k } = o]. *)
Definition js_get (o : jsobj) (k : string) : jsval :=
  default JUndefined (o !! k).

(** JavaScript truthiness. *)
Definition truthy (v : jsval) : bool :=
  match v with
  | JUndefined | JNull => false
  | JBool b => b
  | JNum n => negb (n =? 0)
  | JStr s => negb (String.eqb s "")
  end.

(** [a || b]. *)
Definition js_or (a b : jsval) : jsval := if truthy a then a else b.

(** [{ k: v, ...o }]: the literal's own field first, then every field of
    [o], a later field replacing an earlier one of the same name. *)
Definition js_spread_over (k : string) (v : jsval) (o : jsobj) : jsobj :=
  o ∪ {[ k := v ]}.

(** ** SQL values and parameter binding *)

Inductive sqlval :=
  | SNull
  | SInt (n : Z)
  | SText (s : string).

#[global] Instance sqlval_eq_dec : EqDecision sqlval.
Proof. solve_decision. Defined.

(** The driver's rendering of a bound parameter: [undefined] and [null]
    become [NULL], booleans the literals [true] and [false] (1 and 0),
    numbers and strings themselves. *)
Definition escape (v : jsval) : sqlval :=
  match v with
  | JUndefined | JNull => SNull
  | JBool b => SInt (if b then 1 else 0)
  | JNum n => SInt n
  | JStr s => SText s
  end.

(** ** The schema of [initDatabase] *)

(** [ENUM('pending', 'in_progress', 'completed')] *)
Inductive Status := pending | in_progress | completed.

#[global] Instance Status_eq_dec : EqDecision Status.
Proof. solve_decision. Defined.

Definition status_name (s : Status) : string :=
  match s with
  | pending => "pending"
  | in_progress => "in_progress"
  | completed => "completed"
  end.

(** A row of [users], without its primary key [id], which is the key of the
    table. *)
Record User := mkUser {
  u_name : string;          (* VARCHAR(100) NOT NULL *)
  u_email : string;         (* VARCHAR(100) UNIQUE NOT NULL *)
  u_created_at : Z          (* TIMESTAMP DEFAULT CURRENT_TIMESTAMP *)
}.

(** A row of [tasks], without its primary key. *)
Record Task := mkTask {
  t_user_id : Z;                  (* INT NOT NULL, REFERENCES users(id) *)
  t_title : string;               (* VARCHAR(200) NOT NULL *)
  t_description : option string;  (* TEXT *)
  t_status : option Status;       (* ENUM(...) DEFAULT 'pending' *)
  t_created_at : Z;               (* TIMESTAMP DEFAULT CURRENT_TIMESTAMP *)
  t_updated_at : Z                (* ... ON UPDATE CURRENT_TIMESTAMP *)
}.

#[global] Instance User_eq_dec : EqDecision User.
Proof. solve_decision. Defined.

#[global] Instance Task_eq_dec : EqDecision Task.
Proof. solve_decision. Defined.

(** The store: both tables keyed by their [AUTO_INCREMENT] primary key, and
    the two counters. *)
Record Db := mkDb {
  users : gmap Z User;
  tasks : gmap Z Task;
  next_user_id : Z;
  next_task_id : Z
}.

#[global] Instance Db_eq_dec : EqDecision Db.
Proof. solve_decision. Defined.

(** The tables right after they have been created. *)
Definition empty_db : Db := mkDb ∅ ∅ 1 1.

(** ** Failures of a statement *)

Inductive store_error :=
  | ConnFault (msg : string)       (* the pool could not reach the server *)
  | NotNull (col : string)         (* NULL given to a NOT NULL column *)
  | DupEntry (key : string)        (* UNIQUE key already taken *)
  | NoReferencedRow                (* foreign key without a parent row *)
  | BadValue (col : string)        (* value outside the column's type *)
  | TooLong (col : string).        (* text longer than the column *)

#[global] Instance store_error_eq_dec : EqDecision store_error.
Proof. solve_decision. Defined.

(** A promise settled: resolved with a value or rejected with an error. *)
Inductive result (A : Type) :=
  | Ok (a : A)
  | Err (e : store_error).
Arguments Ok {A} a.
Arguments Err {A} e.

#[global] Instance result_ret : MRet result := @Ok.
#[global] Instance result_bind : MBind result := λ A B f m,
  match m with
  | Ok a => f a
  | Err e => Err e
  end.

(** Decimal text of a number stored in a text column. *)
Definition text_of_Z (n : Z) : string := NilZero.string_of_int (Z.to_int n).

(** A text fits a column of a given width when it has at most that many
    characters. *)
Definition fits (width : Z) (s : string) : Prop :=
  Z.of_nat (String.length s) ≤ width.

#[global] Instance fits_dec width s : Decision (fits width s).
Proof. unfold fits. apply _. Defined.

(** A failure of the connection during [pool.query]: the statement never
    reached the server, or the server ran it and its reply was lost. *)
Record conn_fault := mkFault {
  fault_message : string;
  reply_lost : bool
}.

(** ** Rows of a result set *)

(** A row of [SELECT t.*, u.name as user_name, u.email as user_email]. *)
Record TaskRow := mkTaskRow {
  r_id : Z;
  r_task : Task;
  user_name : string;
  user_email : string
}.

#[global] Instance TaskRow_eq_dec : EqDecision TaskRow.
Proof. solve_decision. Defined.

(** [ORDER BY created_at DESC]: a row may stand before another when it is
    not older. *)
Definition users_desc (a b : Z * User) : Prop :=
  u_created_at b.2 ≤ u_created_at a.2.

Definition tasks_desc (a b : TaskRow) : Prop :=
  t_created_at (r_task b) ≤ t_created_at (r_task a).

#[global] Instance users_desc_dec a b : Decision (users_desc a b).
Proof. unfold users_desc. apply _. Defined.

#[global] Instance tasks_desc_dec a b : Decision (tasks_desc a b).
Proof. unfold tasks_desc. apply _. Defined.

(** What [pool.query] resolves to, first component: the rows of a [SELECT]
    or the packet of a write. *)
Inductive reply :=
  | ProbeRows                                       (* SELECT 1 *)
  | UserRows (rows : list (Z * User))
  | TaskRows (rows : list TaskRow)
  | OkPacket (insertId : Z) (affectedRows : nat).

#[global] Instance reply_eq_dec : EqDecision reply.
Proof. solve_decision. Defined.

(** [result.insertId] *)
Definition insertId_of (r : reply) : jsval :=
  match r with
  | OkPacket i _ => JNum i
  | _ => JUndefined
  end.

(** ** The statements of [server.js], with their bound parameters *)

Inductive statement :=
  | SelectOne
      (* SELECT 1 *)
  | SelectUsers
      (* SELECT * FROM users ORDER BY created_at DESC *)
  | InsertUser (name email : sqlval)
      (* INSERT INTO users (name, email) VALUES (?, ?) *)
  | SelectTasks
      (* SELECT t.*, u.name as user_name, u.email as user_email
         FROM tasks t JOIN users u ON t.user_id = u.id
         ORDER BY t.created_at DESC *)
  | InsertTask (user_id title description status : sqlval)
      (* INSERT INTO tasks (user_id, title, description, status)
         VALUES (?, ?, ?, ?) *)
  | UpdateTask (title description status id : sqlval)
      (* UPDATE tasks SET title = ?, description = ?, status = ?
         WHERE id = ? *)
  | DeleteTask (id : sqlval)
      (* DELETE FROM tasks WHERE id = ? *)
  | DeleteUser (id : sqlval).
      (* DELETE FROM users WHERE id = ?; no route issues it, it is the
         statement that the ON DELETE CASCADE clause of tasks answers *)

#[global] Instance statement_eq_dec : EqDecision statement.
Proof. solve_decision. Defined.

(** ** Bodies and responses *)

Inductive json :=
  | JObj (o : jsobj)            (* res.json({ ... }) *)
  | JRows (rows : reply)        (* res.json(rows) *)
  | JHealthy (timestamp : Z).
      (* res.json({ status: 'healthy', database: 'connected',
                    timestamp: new Date() }) *)

#[global] Instance json_eq_dec : EqDecision json.
Proof. solve_decision. Defined.

Record response := mkResponse {
  res_status : Z;
  res_body : json
}.

#[global] Instance response_eq_dec : EqDecision response.
Proof. solve_decision. Defined.

(** The requests the routes of [server.js] answer from the store. *)
Inductive request :=
  | GetHealth                                   (* GET /health *)
  | GetUsers                                    (* GET /api/users *)
  | PostUsers (body : jsobj)                    (* POST /api/users *)
  | GetTasks                                    (* GET /api/tasks *)
  | PostTasks (body : jsobj)                    (* POST /api/tasks *)
  | PutTask (id : string) (body : jsobj)        (* PUT /api/tasks/:id *)
  | DeleteTaskReq (id : string).                (* DELETE /api/tasks/:id *)

(** ** HTTP requests and answers *)

Inductive method := GET | POST | PUT | DELETE.

#[global] Instance method_eq_dec : EqDecision method.
Proof. solve_decision. Defined.

(** What [express.json()] makes of the body of a request. *)
Inductive payload :=
  | Malformed                      (* JSON that does not parse *)
  | Body (o : jsobj).              (* the object parsed; {} without a body *)

(** Where a request goes. *)
Inductive routed :=
  | ToHome                         (* app.get('/') *)
  | ToHandler (req : request)      (* a route over the store *)
  | BadParam                       (* an :id that cannot be decoded *)
  | NoRoute.

Inductive http_response :=
  | Answered (res : response)      (* by a handler over the store *)
  | HomePage                       (* by app.get('/'): the HTML page, 200 *)
  | FromFiles (status : Z)         (* by express.static('.') *)
  | Refused (status : Z).          (* by the framework itself *)

Definition http_status (r : http_response) : Z :=
  match r with
  | Answered res => res_status res
  | HomePage => 200
  | FromFiles status => status
  | Refused status => status
  end.

(** A letter in lower case. *)
Definition lower_ascii (c : ascii) : ascii :=
  let n := Ascii.N_of_ascii c in
  if ((65 <=? n) && (n <=? 90))%N then Ascii.ascii_of_N (n + 32) else c.

Fixpoint lower (s : string) : string :=
  match s with
  | EmptyString => EmptyString
  | String c s' => String (lower_ascii c) (lower s')
  end.

(** ** Invariants of the tables *)

(** [AUTO_INCREMENT PRIMARY KEY]: the counters start at 1 and every key of a
    table was handed out by its counter. *)
Definition ids_below_counters (db : Db) : Prop :=
  1 ≤ next_user_id db
  ∧ 1 ≤ next_task_id db
  ∧ (∀ k u, users db !! k = Some u → 1 ≤ k < next_user_id db)
  ∧ (∀ k t, tasks db !! k = Some t → 1 ≤ k < next_task_id db).

(** [UNIQUE] on [users.email]: two rows with one email are one row. *)
Definition emails_unique (db : Db) : Prop :=
  ∀ k1 k2 u1 u2,
    users db !! k1 = Some u1 → users db !! k2 = Some u2 →
    u_email u1 = u_email u2 → k1 = k2.

(** ** Configuration *)

(** [process.env.K]: a text when the variable is set, [undefined]
    otherwise. *)
Definition env_get (env : gmap string string) (k : string) : jsval :=
  match env !! k with
  | Some v => JStr v
  | None => JUndefined
  end.

Record DbConfig := mkDbConfig {
  host : jsval;
  user : jsval;
  password : jsval;
  database : jsval;
  ssl_rejectUnauthorized : bool
}.

(** [const dbConfig = { host: process.env.MYSQL_SERVER || ..., ... }] *)
Definition dbConfig (env : gmap string string) : DbConfig :=
  mkDbConfig
    (js_or (env_get env "MYSQL_SERVER") (JStr "host.wsl.internal"))
    (js_or (env_get env "MYSQL_USERNAME") (JStr "adminstudent"))
    (js_or (env_get env "MYSQL_PASSWORD") (JStr "admin"))
    (js_or (env_get env "MYSQL_DATABASE") (JStr "taskdb"))
    false.

(** [const PORT = process.env.PORT || 8080] *)
Definition PORT (env : gmap string string) : jsval :=
  js_or (env_get env "PORT") (JNum 8080).

(** The variables [server.js] reads. *)
Definition server_variables : list string :=
  ["MYSQL_SERVER"; "MYSQL_USERNAME"; "MYSQL_PASSWORD"; "MYSQL_DATABASE";
   "PORT"].

(** ** The deployment script

    The script of [src/unnamed/part_000] runs under [set -e]: a command that
    fails ends the script with that command's status, except where the
    command is the condition of an [if].  Commands are the external
    programs the script calls, with the arguments that carry data from one
    step to the next; what each of them does in the cloud is not modelled,
    only whether it succeeds and what it prints; [echo] and the [progress]
    banner print and go on. *)

(** [randomSuffix=$((RANDOM % 9000 + 1000))] *)
Definition randomSuffix (RANDOM : Z) : Z := Z.rem RANDOM 9000 + 1000.

Definition resourceGroup : string := "RG-TaskManager".
Definition mysqlAdminUser : string := "adminstudent".
Definition mysqlAdminPassword : string := "admin".
Definition mysqlDatabase : string := "taskdb".

Definition mysqlServerName (suffix : Z) : string :=
  "taskmysql" ++ text_of_Z suffix.
Definition webAppName (suffix : Z) : string :=
  "wa-taskmanager" ++ text_of_Z suffix.
Definition storageAccountName (suffix : Z) : string :=
  "sttaskmanager" ++ text_of_Z suffix.
Definition keyVaultName (suffix : Z) : string :=
  "kv-taskmanager" ++ text_of_Z suffix.

(** [connectionString="Server=$mysqlFqdn;Database=...;SslMode=Required;"] *)
Definition connectionString (mysqlFqdn : string) : string :=
  "Server=" ++ mysqlFqdn ++ ";Database=" ++ mysqlDatabase ++ ";Uid="
  ++ mysqlAdminUser ++ ";Pwd=" ++ mysqlAdminPassword ++ ";SslMode=Required;".

(** [keyVaultUri="https://${keyVaultName}.vault.azure.net"] *)
Definition keyVaultUri (suffix : Z) : string :=
  "https://" ++ keyVaultName suffix ++ ".vault.azure.net".

(** The secrets stored in the vault, in the order of the script. *)
Definition secrets (mysqlFqdn : string) : list (string * string) :=
  [("mysql-server", mysqlFqdn);
   ("mysql-username", mysqlAdminUser);
   ("mysql-password", mysqlAdminPassword);
   ("mysql-database", mysqlDatabase);
   ("mysql-connection-string", connectionString mysqlFqdn)].

(** ["@Microsoft.KeyVault(SecretUri=${keyVaultUri}/secrets/<name>/)"] *)
Definition keyVaultReference (suffix : Z) (secret : string) : string :=
  "@Microsoft.KeyVault(SecretUri=" ++ keyVaultUri suffix ++ "/secrets/"
  ++ secret ++ "/)".

(** The app settings of step 7. *)
Definition appSettings (suffix : Z) : list (string * string) :=
  [("MYSQL_SERVER", keyVaultReference suffix "mysql-server");
   ("MYSQL_USERNAME", keyVaultReference suffix "mysql-username");
   ("MYSQL_PASSWORD", keyVaultReference suffix "mysql-password");
   ("MYSQL_DATABASE", keyVaultReference suffix "mysql-database");
   ("MYSQL_CONNECTION_STRING",
    keyVaultReference suffix "mysql-connection-string")].

Inductive vm_auth :=
  | AdminPassword (pw : string)      (* --admin-password *)
  | SshKeyValues (path : string).    (* --ssh-key-values *)

Inductive command :=
  | AzGroupCreate (group : string)
  | AzVnetCreate
  | AzMysqlCreate (server admin_user admin_password database : string)
  | AzKeyvaultCreate (vault : string)
  | AzMysqlShow (server : string)
  | AzSecretSet (vault name value : string)
  | AzPlanCreate
  | AzWebappCreate (app : string)
  | AzIdentityAssign (app : string)
  | AzSetPolicy (vault principal : string)
  | AzAppSettingsSet (app : string) (settings : list (string * string))
  | AzStorageAccountCreate (account : string)
  | AzStorageContainerCreate (account : string)
  | AzVmCreate (auth : vm_auth)
  | ScriptDir                        (* cd "$(dirname ...)" && pwd *)
  | Realpath                         (* realpath "$SCRIPT_DIR/../../app.zip" *)
  | AzDeployZip (app : string) (src : list string)
  | AzInsightsCreate (app : string)
  | AzInsightsShow (app : string).

#[global] Instance vm_auth_eq_dec : EqDecision vm_auth.
Proof. solve_decision. Defined.

#[global] Instance command_eq_dec : EqDecision command.
Proof. solve_decision. Defined.

(** The words of an unquoted expansion: split at spaces, tabs and
    newlines; pathname expansion of the words is not modelled. *)
Definition is_blank (c : ascii) : bool :=
  bool_decide (c = " "%char ∨ c = "009"%char ∨ c = "010"%char).

Fixpoint split_from (word : string) (s : string) : list string :=
  match s with
  | EmptyString => if String.eqb word "" then [] else [word]
  | String c s' =>
      if is_blank c then
        (if String.eqb word "" then [] else [word]) ++ split_from "" s'
      else split_from (word ++ String c "") s'
  end.

Definition words (s : string) : list string := split_from "" s.

(** What the script meets when it runs. *)
Record world := mkWorld {
  RANDOM : Z;                        (* $RANDOM *)
  succeeds : command → bool;         (* exit status 0 *)
  stdout : command → string;         (* what a command prints *)
  ssh_key_present : bool;            (* [ -f "$HOME/.ssh/id_rsa.pub" ] *)
  app_zip_present : bool             (* [[ -f "$APP_ZIP_PATH" ]] *)
}.

(** How the script ended. *)
Inductive ending :=
  | Completed                        (* ran to its last line: status 0 *)
  | Exit (code : Z)                  (* an explicit exit *)
  | Errexit (c : command).           (* set -e: the status of [c] *)

(** A piece of script: from the commands run so far to the commands run
    after it and either its value or the ending of the script. *)
Definition sh (A : Type) : Type :=
  world → list command → list command * (ending + A).

#[global] Instance sh_ret : MRet sh := λ A a w tr, (tr, inr a).
#[global] Instance sh_bind : MBind sh := λ A B f m w tr,
  match m w tr with
  | (tr', inr a) => f a w tr'
  | (tr', inl e) => (tr', inl e)
  end.

(** A simple command under [set -e]; its value is what it printed. *)
Definition run (c : command) : sh string := λ w tr,
  if succeeds w c then ((tr ++ [c])%list, inr (stdout w c))
  else ((tr ++ [c])%list, inl (Errexit c)).

(** [exit n] *)
Definition exit_with (n : Z) : sh unit := λ w tr, (tr, inl (Exit n)).

(** [if c; then body; fi]: the status of the condition is tested, not
    fatal. *)
Definition if_succeeds (c : command) (body : sh unit) : sh unit := λ w tr,
  if succeeds w c then body w (tr ++ [c])%list
  else ((tr ++ [c])%list, inr ()).

(** Reading the world. *)
Definition ask {A} (f : world → A) : sh A := λ w tr, (tr, inr (f w)).

(** Steps 1 to 9: the resources. *)
Definition provision : sh unit :=
  suffix ← ask (λ w, randomSuffix (RANDOM w));
  _ ← run (AzGroupCreate resourceGroup);
  _ ← run AzVnetCreate;
  _ ← run (AzMysqlCreate (mysqlServerName suffix) mysqlAdminUser
             mysqlAdminPassword mysqlDatabase);
  _ ← run (AzKeyvaultCreate (keyVaultName suffix));
  mysqlFqdn ← run (AzMysqlShow (mysqlServerName suffix));
  _ ← run (AzSecretSet (keyVaultName suffix) "mysql-server" mysqlFqdn);
  _ ← run (AzSecretSet (keyVaultName suffix) "mysql-username" mysqlAdminUser);
  _ ← run (AzSecretSet (keyVaultName suffix) "mysql-password"
             mysqlAdminPassword);
  _ ← run (AzSecretSet (keyVaultName suffix) "mysql-database" mysqlDatabase);
  _ ← run (AzSecretSet (keyVaultName suffix) "mysql-connection-string"
             (connectionString mysqlFqdn));
  _ ← run AzPlanCreate;
  _ ← run (AzWebappCreate (webAppName suffix));
  principalId ← run (AzIdentityAssign (webAppName suffix));
  _ ← run (AzSetPolicy (keyVaultName suffix) principalId);
  _ ← run (AzAppSettingsSet (webAppName suffix) (appSettings suffix));
  _ ← run (AzStorageAccountCreate (storageAccountName suffix));
  _ ← run (AzStorageContainerCreate (storageAccountName suffix));
  key ← ask ssh_key_present;
  _ ← (if negb key then run (AzVmCreate (AdminPassword "admin"))
       else run (AzVmCreate (SshKeyValues "$HOME/.ssh/id_rsa.pub")));
  mret ().

(** Step 10: the application. *)
Definition deploy_app : sh unit :=
  suffix ← ask (λ w, randomSuffix (RANDOM w));
  _ ← run ScriptDir;
  APP_ZIP_PATH ← run Realpath;
  zip ← ask app_zip_present;
  _ ← (if negb zip then exit_with 1 else mret ());
  _ ← run (AzDeployZip (webAppName suffix) (words APP_ZIP_PATH));
  mret ().

(** The Azure Monitor block. *)
Definition monitor : sh unit :=
  suffix ← ask (λ w, randomSuffix (RANDOM w));
  if_succeeds (AzInsightsCreate (webAppName suffix))
    (instrumentationKey ← run (AzInsightsShow (webAppName suffix));
     _ ← run (AzAppSettingsSet (webAppName suffix)
                [("APPINSIGHTS_INSTRUMENTATIONKEY", instrumentationKey)]);
     mret ()).

Definition script : sh unit :=
  _ ← provision;
  _ ← deploy_app;
  monitor.

(** The commands the script ran and how it ended. *)
Definition deployment (w : world) : list command * ending :=
  match script w [] with
  | (tr, inr _) => (tr, Completed)
  | (tr, inl e) => (tr, e)
  end.

(** The commands of steps 1 to 10 in a world, in the order of the script. *)
Definition required_commands (w : world) : list command :=
  let suffix := randomSuffix (RANDOM w) in
  let mysqlFqdn := stdout w (AzMysqlShow (mysqlServerName suffix)) in
  [AzGroupCreate resourceGroup;
   AzVnetCreate;
   AzMysqlCreate (mysqlServerName suffix) mysqlAdminUser mysqlAdminPassword
     mysqlDatabase;
   AzKeyvaultCreate (keyVaultName suffix);
   AzMysqlShow (mysqlServerName suffix)]
  ++ ((λ s, AzSecretSet (keyVaultName suffix) s.1 s.2) <$> secrets mysqlFqdn)
  ++ [AzPlanCreate;
      AzWebappCreate (webAppName suffix);
      AzIdentityAssign (webAppName suffix);
      AzSetPolicy (keyVaultName suffix)
        (stdout w (AzIdentityAssign (webAppName suffix)));
      AzAppSettingsSet (webAppName suffix) (appSettings suffix);
      AzStorageAccountCreate (storageAccountName suffix);
      AzStorageContainerCreate (storageAccountName suffix);
      AzVmCreate (if ssh_key_present w
                  then SshKeyValues "$HOME/.ssh/id_rsa.pub"
                  else AdminPassword "admin");
      ScriptDir;
      Realpath;
      AzDeployZip (webAppName suffix) (words (stdout w Realpath))].

(** The commands of the Azure Monitor block that run in a world when the
    script gets there. *)
Definition monitor_commands (w : world) : list command :=
  let app := webAppName (randomSuffix (RANDOM w)) in
  if succeeds w (AzInsightsCreate app) then
    [AzInsightsCreate app;
     AzInsightsShow app;
     AzAppSettingsSet app
       [("APPINSIGHTS_INSTRUMENTATIONKEY", stdout w (AzInsightsShow app))]]
  else [AzInsightsCreate app].

(** ** A concrete server and sample stores

    One server the parameters of the development can stand for: texts cast
    to [INT] when they are decimal numerals, and messages worded as MySQL
    words them. *)

Definition decimal_int (s : string) : option Z :=
  Z.of_int <$> NilZero.int_of_string s.

Definition mysql_message (e : store_error) : string :=
  match e with
  | ConnFault msg => msg
  | NotNull col => "Column '" ++ col ++ "' cannot be null"
  | DupEntry key => "Duplicate entry for key '" ++ key ++ "'"
  | NoReferencedRow =>
      "Cannot add or update a child row: a foreign key constraint fails"
  | BadValue col => "Data truncated for column '" ++ col ++ "' at row 1"
  | TooLong col => "Data too long for column '" ++ col ++ "' at row 1"
  end.



Definition alice : User := mkUser "Alice" "alice@example.com" 10.
Definition bob : User := mkUser "Bob" "bob@example.com" 11.

Definition report : Task :=
  mkTask 1 "Write report" (Some "quarterly") (Some pending) 20 20.
Definition review : Task :=
  mkTask 2 "Review report" None (Some in_progress) 30 31.
Definition archive : Task :=
  mkTask 1 "Archive report" None (Some completed) 40 40.

(** One user, no task. *)
Definition db_alice : Db := mkDb {[ 1 := alice ]} ∅ 2 1.

(** One user with one pending task. *)
Definition db_report : Db := mkDb {[ 1 := alice ]} {[ 1 := report ]} 2 2.

(** Two users, three tasks. *)
Definition db_office : Db :=
  mkDb (<[1 := alice]> {[ 2 := bob ]})
       (<[1 := report]> (<[2 := review]> {[ 3 := archive ]})) 3 4.

(** Sample request bodies. *)

(** [{"name": "Alice B", "email": "alice@example.com"}] *)
Definition body_alice_again : jsobj :=
  <["name" := JStr "Alice B"]> {[ "email" := JStr "alice@example.com" ]}.

(** [{"user_id": 7, "title": "Lost"}] *)
Definition body_orphan : jsobj :=
  <["user_id" := JNum 7]> {[ "title" := JStr "Lost" ]}.

(** [{"description": "later"}] *)
Definition body_no_title : jsobj := {[ "description" := JStr "later" ]}.

(** [{"title": "Write summary"}] *)
Definition body_new_title : jsobj := {[ "title" := JStr "Write summary" ]}.

(** [{"id": 99, "user_id": 1, "title": "Buy milk"}] *)
Definition body_with_id : jsobj :=
  <["id" := JNum 99]>
    (<["user_id" := JNum 1]> {[ "title" := JStr "Buy milk" ]}).

(** [{"user_id": 1, "title": "Buy milk", "status": ""}] *)
Definition body_empty_status : jsobj :=
  <["user_id" := JNum 1]>
    (<["title" := JStr "Buy milk"]> {[ "status" := JStr "" ]}).



(** [{"user_id": 1, "title": "Buy milk", "status": <status>}] *)
Definition body_with_status (status : jsval) : jsobj :=
  <["user_id" := JNum 1]>
    (<["title" := JStr "Buy milk"]> {[ "status" := status ]}).

(** [{"title": "Write report", "description": "quarterly",
      "status": "completed"}] *)
Definition body_completed : jsobj :=
  <["title" := JStr "Write report"]>
    (<["description" := JStr "quarterly"]>
       {[ "status" := JStr "completed" ]}).

(** A world in which every command succeeds; [app.zip] and the SSH key are
    there. *)
Definition world_all_good : world :=
  mkWorld 234 (λ _, true)
    (λ c, match c with
          | AzMysqlShow _ => "taskmysql1234.mysql.database.azure.com"
          | AzIdentityAssign _ => "principal-1"
          | Realpath => "/srv/app.zip"
          | AzInsightsShow _ => "ikey-1"
          | _ => ""
          end)
    true true.

(** The same world without [app.zip]. *)
Definition world_no_zip : world :=
  mkWorld 234 (λ _, true) (stdout world_all_good) true false.

(** A world in which the virtual network cannot be created. *)
Definition world_vnet_down : world :=
  mkWorld 234 (λ c, bool_decide (c ≠ AzVnetCreate)) (stdout world_all_good)
    true true.

(** The environment of the application once the settings of the script are
    resolved. *)
Definition env_deployed : gmap string string :=
  list_to_map
    [("MYSQL_SERVER", "taskmysql1234.mysql.database.azure.com");
     ("MYSQL_USERNAME", "adminstudent");
     ("MYSQL_PASSWORD", "admin");
     ("MYSQL_DATABASE", "taskdb");
     ("MYSQL_CONNECTION_STRING",
      connectionString "taskmysql1234.mysql.database.azure.com")].

Section Server.

(** What the source leaves to the server: its cast of a text to [INT]
    ([None] when the text is rejected), and the wording of the message of
    each error it raises. *)
Context (int_of_text : string → option Z).
Context (server_message : store_error → string).

(** What the source leaves to the framework and to the working directory:
    the decoding of the [:id] of a path ([None] when its percent-encoding is
    malformed), and the status with which [express.static('.')] answers a
    GET from the files it finds, if it finds one. *)
Context (decode_param : string → option string).
Context (serve_static : list string → option Z).

(** [error.message] *)
Definition message (e : store_error) : string :=
  match e with
  | ConnFault msg => msg
  | _ => server_message e
  end.

(** ** Casts of a bound value to the type of its column *)

(** A bound value as a text: a number by its decimal digits, [NULL] as
    no text. *)
Definition to_text (v : sqlval) : option string :=
  match v with
  | SNull => None
  | SInt n => Some (text_of_Z n)
  | SText s => Some s
  end.

(** [VARCHAR(width) NOT NULL] *)
Definition to_varchar (col : string) (width : Z) (v : sqlval)
  : result string :=
  match to_text v with
  | None => Err (NotNull col)
  | Some s => if decide (fits width s) then Ok s else Err (TooLong col)
  end.

(** [description TEXT], nullable: at most 65,535 characters. *)
Definition to_description (v : sqlval) : result (option string) :=
  match to_text v with
  | None => Ok None
  | Some s =>
      if decide (fits 65535 s) then Ok (Some s)
      else Err (TooLong "description")
  end.

(** [INT NOT NULL] *)
Definition to_int (col : string) (v : sqlval) : result Z :=
  match v with
  | SNull => Err (NotNull col)
  | SInt n => Ok n
  | SText s =>
      match int_of_text s with
      | Some n => Ok n
      | None => Err (BadValue col)
      end
  end.

(** A text given to the [ENUM] column is the name of a member. *)
Definition status_of_text (s : string) : option Status :=
  head (filter (λ st, status_name st = s) [pending; in_progress; completed]).

(** A number given to an [ENUM] column is the index of a member. *)
Definition status_of_index (n : Z) : option Status :=
  if decide (n = 1) then Some pending
  else if decide (n = 2) then Some in_progress
  else if decide (n = 3) then Some completed
  else None.

(** [ENUM('pending', 'in_progress', 'completed')], nullable: the store's
    check of a status. *)
Definition to_status (v : sqlval) : result (option Status) :=
  match v with
  | SNull => Ok None
  | SInt n =>
      match status_of_index n with
      | Some s => Ok (Some s)
      | None => Err (BadValue "status")
      end
  | SText s =>
      match status_of_text s with
      | Some s => Ok (Some s)
      | None => Err (BadValue "status")
      end
  end.

(** The primary key a [WHERE id = ?] selects, if any. *)
Definition row_key (v : sqlval) : option Z :=
  match v with
  | SNull => None
  | SInt n => Some n
  | SText s => int_of_text s
  end.

(** ** The statements on the tables *)

(** The users that hold a given email. *)
Definition users_with_email (e : string) (db : Db) : gmap Z User :=
  filter (λ ku, u_email ku.2 = e) (users db).

Definition insert_user (now : Z) (vname vemail : sqlval) (db : Db)
  : result (reply * Db) :=
  name ← to_varchar "name" 100 vname;
  email ← to_varchar "email" 100 vemail;
  if decide (users_with_email email db = ∅) then
    let id := next_user_id db in
    Ok (OkPacket id 1,
        mkDb (<[id := mkUser name email now]> (users db)) (tasks db)
             (id + 1) (next_task_id db))
  else Err (DupEntry "users.email").

Definition insert_task (now : Z) (vuser vtitle vdesc vstatus : sqlval)
  (db : Db) : result (reply * Db) :=
  uid ← to_int "user_id" vuser;
  title ← to_varchar "title" 200 vtitle;
  desc ← to_description vdesc;
  status ← to_status vstatus;
  match users db !! uid with
  | None => Err NoReferencedRow
  | Some _ =>
      let id := next_task_id db in
      Ok (OkPacket id 1,
          mkDb (users db)
               (<[id := mkTask uid title desc status now now]> (tasks db))
               (next_user_id db) (id + 1))
  end.

(** The three columns of the [SET] clause written into a row. *)
Definition set_columns (title : string) (desc : option string)
  (status : option Status) (row : Task) : Task :=
  mkTask (t_user_id row) title desc status (t_created_at row)
         (t_updated_at row).

(** [ON UPDATE CURRENT_TIMESTAMP]: refreshed when the row changes. *)
Definition touch (now : Z) (row : Task) : Task :=
  mkTask (t_user_id row) (t_title row) (t_description row) (t_status row)
         (t_created_at row) now.

Definition update_task (now : Z) (vtitle vdesc vstatus vid : sqlval)
  (db : Db) : result (reply * Db) :=
  match row_key vid ≫= λ k, (k,.) <$> tasks db !! k with
  | None => Ok (OkPacket 0 0, db)
  | Some (k, row) =>
      title ← to_varchar "title" 200 vtitle;
      desc ← to_description vdesc;
      status ← to_status vstatus;
      let row' := set_columns title desc status row in
      if decide (row' = row) then Ok (OkPacket 0 0, db)
      else
        Ok (OkPacket 0 1,
            mkDb (users db) (<[k := touch now row']> (tasks db))
                 (next_user_id db) (next_task_id db))
  end.

Definition delete_task (vid : sqlval) (db : Db) : result (reply * Db) :=
  match row_key vid ≫= λ k, (k,.) <$> tasks db !! k with
  | None => Ok (OkPacket 0 0, db)
  | Some (k, _) =>
      Ok (OkPacket 0 1,
          mkDb (users db) (delete k (tasks db))
               (next_user_id db) (next_task_id db))
  end.

(** [FOREIGN KEY (user_id) REFERENCES users(id) ON DELETE CASCADE]: the
    user's tasks go with the user, in the same statement. *)
Definition delete_user (vid : sqlval) (db : Db) : result (reply * Db) :=
  match row_key vid ≫= λ k, (k,.) <$> users db !! k with
  | None => Ok (OkPacket 0 0, db)
  | Some (k, _) =>
      Ok (OkPacket 0 1,
          mkDb (delete k (users db))
               (filter (λ kt, t_user_id kt.2 ≠ k) (tasks db))
               (next_user_id db) (next_task_id db))
  end.

Definition select_users (db : Db) : list (Z * User) :=
  merge_sort users_desc (map_to_list (users db)).

(** [JOIN users u ON t.user_id = u.id] for one task. *)
Definition join_user (db : Db) (kt : Z * Task) : option TaskRow :=
  u ← users db !! t_user_id kt.2;
  Some (mkTaskRow kt.1 kt.2 (u_name u) (u_email u)).

Definition select_tasks (db : Db) : list TaskRow :=
  merge_sort tasks_desc (omap (join_user db) (map_to_list (tasks db))).

(** One statement run by the server at time [now]. *)
Definition exec (now : Z) (q : statement) (db : Db) : result (reply * Db) :=
  match q with
  | SelectOne => Ok (ProbeRows, db)
  | SelectUsers => Ok (UserRows (select_users db), db)
  | InsertUser n e => insert_user now n e db
  | SelectTasks => Ok (TaskRows (select_tasks db), db)
  | InsertTask u t d s => insert_task now u t d s db
  | UpdateTask t d s i => update_task now t d s i db
  | DeleteTask i => delete_task i db
  | DeleteUser i => delete_user i db
  end.

(** [await pool.query(sql, params)]: [fault] is the failure of the
    connection during this statement, if it fails; the promise is then
    rejected with the message of that failure. *)
Definition pool_query (fault : option conn_fault) (now : Z) (q : statement)
  (db : Db) : result (reply * Db) :=
  match fault with
  | Some f => Err (ConnFault (fault_message f))
  | None => exec now q db
  end.

(** The store once [pool.query] has been rejected: as it was, unless the
    server ran the statement before the connection failed. *)
Definition store_on_rejection (fault : option conn_fault) (now : Z)
  (q : statement) (db : Db) : Db :=
  match fault with
  | Some f =>
      if reply_lost f then
        match exec now q db with
        | Ok (_, db') => db'
        | Err _ => db
        end
      else db
  | None => db
  end.

(** ** The request handlers *)

(** [res.status(500).json({ error: error.message })] *)
Definition error_response (e : store_error) : response :=
  mkResponse 500 (JObj {[ "error" := JStr (message e) ]}).

(** [app.get('/health', ...)] *)
Definition get_health (fault : option conn_fault) (now : Z) (db : Db)
  : response * Db :=
  match pool_query fault now SelectOne db with
  | Ok (_, db') => (mkResponse 200 (JHealthy now), db')
  | Err e =>
      (mkResponse 500
         (JObj (<["status" := JStr "unhealthy"]>
                  {[ "error" := JStr (message e) ]})),
       store_on_rejection fault now SelectOne db)
  end.

(** [app.get('/api/users', ...)] *)
Definition get_users (fault : option conn_fault) (now : Z) (db : Db)
  : response * Db :=
  match pool_query fault now SelectUsers db with
  | Ok (rows, db') => (mkResponse 200 (JRows rows), db')
  | Err e => (error_response e, store_on_rejection fault now SelectUsers db)
  end.

(** [app.post('/api/users', ...)] *)
Definition post_users (fault : option conn_fault) (now : Z) (body : jsobj)
  (db : Db) : response * Db :=
  let name := js_get body "name" in
  let email := js_get body "email" in
  let insert := InsertUser (escape name) (escape email) in
  match pool_query fault now insert db with
  | Ok (result, db') =>
      (mkResponse 201
         (JObj (<["id" := insertId_of result]>
                  (<["name" := name]> {[ "email" := email ]}))),
       db')
  | Err e => (error_response e, store_on_rejection fault now insert db)
  end.

(** [app.get('/api/tasks', ...)] *)
Definition get_tasks (fault : option conn_fault) (now : Z) (db : Db)
  : response * Db :=
  match pool_query fault now SelectTasks db with
  | Ok (rows, db') => (mkResponse 200 (JRows rows), db')
  | Err e => (error_response e, store_on_rejection fault now SelectTasks db)
  end.

(** [app.post('/api/tasks', ...)] *)
Definition post_tasks (fault : option conn_fault) (now : Z) (body : jsobj)
  (db : Db) : response * Db :=
  let user_id := js_get body "user_id" in
  let title := js_get body "title" in
  let description := js_get body "description" in
  let status := js_get body "status" in
  let insert :=
    InsertTask (escape user_id) (escape title) (escape description)
               (escape (js_or status (JStr "pending"))) in
  match pool_query fault now insert db with
  | Ok (result, db') =>
      (mkResponse 201
         (JObj (js_spread_over "id" (insertId_of result) body)),
       db')
  | Err e => (error_response e, store_on_rejection fault now insert db)
  end.

(** [app.put('/api/tasks/:id', ...)] *)
Definition put_task (fault : option conn_fault) (now : Z) (id : string)
  (body : jsobj) (db : Db) : response * Db :=
  let title := js_get body "title" in
  let description := js_get body "description" in
  let status := js_get body "status" in
  let update :=
    UpdateTask (escape title) (escape description) (escape status)
               (escape (JStr id)) in
  match pool_query fault now update db with
  | Ok (_, db') =>
      (mkResponse 200
         (JObj (<["message" := JStr "Task updated"]> {[ "id" := JStr id ]})),
       db')
  | Err e => (error_response e, store_on_rejection fault now update db)
  end.

(** [app.delete('/api/tasks/:id', ...)] *)
Definition delete_task_req (fault : option conn_fault) (now : Z) (id : string)
  (db : Db) : response * Db :=
  let delete := DeleteTask (escape (JStr id)) in
  match pool_query fault now delete db with
  | Ok (_, db') =>
      (mkResponse 200
         (JObj (<["message" := JStr "Task deleted"]> {[ "id" := JStr id ]})),
       db')
  | Err e => (error_response e, store_on_rejection fault now delete db)
  end.

(** The router. *)
Definition handle (fault : option conn_fault) (now : Z) (req : request)
  (db : Db) : response * Db :=
  match req with
  | GetHealth => get_health fault now db
  | GetUsers => get_users fault now db
  | PostUsers body => post_users fault now body db
  | GetTasks => get_tasks fault now db
  | PostTasks body => post_tasks fault now body db
  | PutTask id body => put_task fault now id body db
  | DeleteTaskReq id => delete_task_req fault now id db
  end.

(** The one statement the handler of a request sends to the pool. *)
Definition statement_of (req : request) : statement :=
  match req with
  | GetHealth => SelectOne
  | GetUsers => SelectUsers
  | PostUsers body =>
      InsertUser (escape (js_get body "name")) (escape (js_get body "email"))
  | GetTasks => SelectTasks
  | PostTasks body =>
      InsertTask (escape (js_get body "user_id"))
                 (escape (js_get body "title"))
                 (escape (js_get body "description"))
                 (escape (js_or (js_get body "status") (JStr "pending")))
  | PutTask id body =>
      UpdateTask (escape (js_get body "title"))
                 (escape (js_get body "description"))
                 (escape (js_get body "status"))
                 (escape (JStr id))
  | DeleteTaskReq id => DeleteTask (escape (JStr id))
  end.


(** ** Start-up *)

Inductive event :=
  | EvCreatePool
  | EvQuery (table : string)       (* CREATE TABLE IF NOT EXISTS <table> *)
  | EvLog                          (* console.log *)
  | EvLogError                     (* console.error *)
  | EvListen                       (* app.listen(PORT, ...) *)
  | EvExit (code : Z).             (* process.exit(code) *)

Inductive process :=
  | Serving (db : Db)              (* listening: requests are accepted *)
  | Exited (code : Z).

(** [initDatabase()]: the two DDL statements in sequence; [ddl_users] and
    [ddl_tasks] are the failures of the two statements, if they fail.  The
    result is the trace of what was done and how the promise settles. *)
Definition initDatabase (ddl_users ddl_tasks : option store_error)
  : list event * result unit :=
  match ddl_users with
  | Some e => ([EvCreatePool; EvQuery "users"; EvLogError], Err e)
  | None =>
      match ddl_tasks with
      | Some e =>
          ([EvCreatePool; EvQuery "users"; EvQuery "tasks"; EvLogError],
           Err e)
      | None =>
          ([EvCreatePool; EvQuery "users"; EvQuery "tasks"; EvLog], Ok ())
      end
  end.

(** [initDatabase().then(() => app.listen(...)).catch(... process.exit(1))]
    on a store whose tables hold [db] once they exist. *)
Definition startup (ddl_users ddl_tasks : option store_error) (db : Db)
  : list event * process :=
  match initDatabase ddl_users ddl_tasks with
  | (tr, Ok _) => ((tr ++ [EvListen; EvLog])%list, Serving db)
  | (tr, Err _) => ((tr ++ [EvLogError; EvExit 1])%list, Exited 1)
  end.

(** A request reaching the process: answered only while it listens. *)
Definition serve (fault : option conn_fault) (now : Z) (req : request)
  (p : process) : option (response * process) :=
  match p with
  | Serving db =>
      let '(res, db') := handle fault now req db in Some (res, Serving db')
  | Exited _ => None
  end.

(** ** The application: middleware and routes *)

(** The requests [express()] receives, for the methods the file registers
    routes for: the segments of the path between its slashes, after the
    first one (so [/] is the one empty segment and [/api/users/] ends with
    an empty segment), and the body. *)
Record http_request := mkRequest {
  rq_method : method;
  rq_path : list string;
  rq_payload : payload
}.

(** The path without the empty segment that one slash at its end leaves. *)
Definition trim_slash (path : list string) : list string :=
  match reverse path with
  | "" :: rest => reverse rest
  | _ => path
  end.

(** The router compares the fixed segments of a route without regard to
    case. *)
Definition segments_are (route : list string) (path : list string) : bool :=
  bool_decide (lower <$> path = route).

(** The [:id] of [/api/tasks/:id]: one non-empty segment, decoded. *)
Definition task_param (path : list string) (k : string → request)
  : routed :=
  match path with
  | [a; b; id] =>
      if segments_are ["api"; "tasks"] [a; b] && negb (String.eqb id "")
      then
        match decode_param id with
        | Some v => ToHandler (k v)
        | None => BadParam
        end
      else NoRoute
  | _ => NoRoute
  end.

(** [app.get], [app.post], [app.put], [app.delete], in the order of the
    file. *)
Definition route (m : method) (path : list string) (body : jsobj)
  : routed :=
  let p := trim_slash path in
  match m with
  | GET =>
      if segments_are [] p then ToHome
      else if segments_are ["health"] p then ToHandler GetHealth
      else if segments_are ["api"; "users"] p then ToHandler GetUsers
      else if segments_are ["api"; "tasks"] p then ToHandler GetTasks
      else NoRoute
  | POST =>
      if segments_are ["api"; "users"] p then ToHandler (PostUsers body)
      else if segments_are ["api"; "tasks"] p then ToHandler (PostTasks body)
      else NoRoute
  | PUT => task_param p (λ id, PutTask id body)
  | DELETE => task_param p DeleteTaskReq
  end.

(** The application: [express.json()], then [express.static('.')], then
    the routes; what none of them answers, the framework answers itself,
    400 for a body or an id it cannot read and 404 otherwise. *)
Definition app (fault : option conn_fault) (now : Z) (rq : http_request)
  (db : Db) : http_response * Db :=
  match rq_payload rq with
  | Malformed => (Refused 400, db)
  | Body body =>
      match
        match rq_method rq with
        | GET => serve_static (rq_path rq)
        | _ => None
        end
      with
      | Some status => (FromFiles status, db)
      | None =>
          match route (rq_method rq) (rq_path rq) body with
          | ToHome => (HomePage, db)
          | ToHandler req =>
              let '(res, db') := handle fault now req db in
              (Answered res, db')
          | BadParam => (Refused 400, db)
          | NoRoute => (Refused 404, db)
          end
      end
  end.


(** ** Reachable stores *)

(** The stores reached from the freshly created tables by the requests of
    the API and by deletions of users in the store. *)
Inductive reachable : Db → Prop :=
  | reachable_init : reachable empty_db
  | reachable_handle fault now req db :
      reachable db → reachable (handle fault now req db).2
  | reachable_delete_user now vid db r db' :
      reachable db →
      exec now (DeleteUser vid) db = Ok (r, db') →
      reachable db'.

(** Every task is owned by a user of the store. *)
Definition owners_exist (db : Db) : Prop :=
  ∀ k t, tasks db !! k = Some t → is_Some (users db !! t_user_id t).

(** ** Properties *)

(** *** Shared facts about the store *)

Ltac unfold_handlers :=
  unfold handle, get_health, get_users, post_users, get_tasks, post_tasks,
    put_task, delete_task_req, error_response.

Lemma pool_query_reachable now q db :
  pool_query None now q db = exec now q db.
Proof. reflexivity. Qed.

Lemma pool_query_fault f now q db :
  pool_query (Some f) now q db = Err (ConnFault (fault_message f)).
Proof. reflexivity. Qed.

(** A rejected query whose statement the store refuses leaves the store as
    it was, whether or not the statement reached the server. *)
Lemma store_on_rejection_refused fault now q db e :
  exec now q db = Err e → store_on_rejection fault now q db = db.
Proof.
  intros Hexec. unfold store_on_rejection.
  destruct fault as [f|]; [|done]. destruct (reply_lost f); [|done].
  by rewrite Hexec.
Qed.

(** After a rejected query the store is as it was or as the statement left
    it. *)
Lemma store_on_rejection_cases fault now q db :
  store_on_rejection fault now q db = db
  ∨ ∃ r, exec now q db = Ok (r, store_on_rejection fault now q db).
Proof.
  unfold store_on_rejection.
  destruct fault as [f|]; [|by left]. destruct (reply_lost f); [|by left].
  destruct (exec now q db) as [[r db']|e]; [right; eauto | by left].
Qed.

Lemma pool_query_Ok fault now q db r db' :
  pool_query fault now q db = Ok (r, db') → exec now q db = Ok (r, db').
Proof. by destruct fault. Qed.

Lemma to_text_null v : to_text v = None ↔ v = SNull.
Proof. destruct v; simpl; split; congruence. Qed.

Lemma to_varchar_Ok col width v s :
  to_varchar col width v = Ok s ↔ to_text v = Some s ∧ fits width s.
Proof.
  unfold to_varchar. destruct (to_text v) as [t|].
  - destruct (decide (fits width t)); split.
    + intros [= ->]. done.
    + by intros [[= ->] _].
    + discriminate.
    + intros [[= ->] Hfit]. done.
  - split; [discriminate | by intros [[=] _]].
Qed.



Lemma to_description_Ok v d :
  to_description v = Ok d ↔
  to_text v = d ∧ ∀ s, d = Some s → fits 65535 s.
Proof.
  unfold to_description. destruct (to_text v) as [t|].
  - destruct (decide (fits 65535 t)); split.
    + intros [= <-]. split; [done|]. by intros s [= <-].
    + by intros [<- _].
    + discriminate.
    + intros [<- Hfit]. destruct n. by apply Hfit.
  - split; [intros [= <-]; by split | by intros [<- _]].
Qed.

Lemma to_int_row_key col v k : to_int col v = Ok k ↔ row_key v = Some k.
Proof.
  destruct v as [|n|s]; simpl.
  - split; intros; discriminate.
  - split; intros; congruence.
  - destruct (int_of_text s); split; intros; congruence.
Qed.

Lemma to_status_pending : to_status (SText "pending") = Ok (Some pending).
Proof. reflexivity. Qed.

(** A taken email rejects the insert, whatever else the statement holds. *)
Lemma insert_user_taken now vname e db :
  users_with_email e db ≠ ∅ →
  ∃ err, insert_user now vname (SText e) db = Err err
         ∧ (∀ name, to_text vname = Some name →
              err = if decide (fits 100 name) then
                      if decide (fits 100 e) then DupEntry "users.email"
                      else TooLong "email"
                    else TooLong "name").
Proof.
  intros Htaken. unfold insert_user, to_varchar. simpl.
  destruct (to_text vname) as [name|]; simpl;
    [|eexists; split; [done | discriminate]].
  destruct (decide (fits 100 name)); simpl;
    [|eexists; split; [done | intros ? [= <-]; by repeat case_decide]].
  destruct (decide (fits 100 e)); simpl;
    [|eexists; split; [done | intros ? [= <-]; by repeat case_decide]].
  destruct (decide (users_with_email e db = ∅)); [done|].
  eexists; split; [done | intros ? [= <-]; by repeat case_decide].
Qed.

(** A task whose owner does not exist rejects the insert. *)
Lemma insert_task_orphan now vuser vtitle vdesc vstatus db :
  (∀ k, row_key vuser = Some k → users db !! k = None) →
  ∃ err, insert_task now vuser vtitle vdesc vstatus db = Err err.
Proof.
  intros Horphan. unfold insert_task.
  destruct (to_int "user_id" vuser) as [k|e] eqn:Hk; simpl; [|eauto].
  destruct (to_varchar "title" 200 vtitle); simpl; [|eauto].
  destruct (to_description vdesc); simpl; [|eauto].
  destruct (to_status vstatus); simpl; [|eauto].
  apply to_int_row_key in Hk. rewrite (Horphan _ Hk). eauto.
Qed.

(** A task inserted for an existing owner. *)
Lemma insert_task_Ok now vuser vtitle vdesc vstatus db k u title desc
  status :
  row_key vuser = Some k →
  users db !! k = Some u →
  to_varchar "title" 200 vtitle = Ok title →
  to_description vdesc = Ok desc →
  to_status vstatus = Ok status →
  insert_task now vuser vtitle vdesc vstatus db =
    Ok (OkPacket (next_task_id db) 1,
        mkDb (users db)
             (<[next_task_id db :=
                  mkTask k title desc status now now]> (tasks db))
             (next_user_id db) (next_task_id db + 1)).
Proof.
  intros Hk Hu Ht Hd Hs. apply (to_int_row_key "user_id") in Hk.
  unfold insert_task. rewrite Hk; simpl. rewrite Ht; simpl.
  rewrite Hd; simpl. rewrite Hs; simpl. by rewrite Hu.
Qed.

(** A [WHERE id = ?] that selects no row leaves the table alone. *)
Lemma update_task_missing now vt vd vs vid db :
  (∀ k, row_key vid = Some k → tasks db !! k = None) →
  update_task now vt vd vs vid db = Ok (OkPacket 0 0, db).
Proof.
  intros Hmiss. unfold update_task.
  destruct (row_key vid) as [k|]; simpl; [|done].
  by rewrite (Hmiss k eq_refl).
Qed.

Lemma delete_task_missing vid db :
  (∀ k, row_key vid = Some k → tasks db !! k = None) →
  delete_task vid db = Ok (OkPacket 0 0, db).
Proof.
  intros Hmiss. unfold delete_task.
  destruct (row_key vid) as [k|]; simpl; [|done].
  by rewrite (Hmiss k eq_refl).
Qed.

(** *** Creating users *)

(** C1. When exactly one user of the store holds an email, a create-user
    request with that same email is answered 500 and the store is left as it
    was, so that still exactly one user holds the email; when the pool
    reaches the server and the request carries a name, the failure is the
    one raised by the UNIQUE key of [users.email], unless the name or the
    email is longer than its column, which is then the failure reported. *)
Theorem duplicate_email_rejected fault now body db e :
  size (users_with_email e db) = 1%nat →
  js_get body "email" = JStr e →
  res_status (post_users fault now body db).1 = 500
  ∧ (post_users fault now body db).2 = db
  ∧ size (users_with_email e (post_users fault now body db).2) = 1%nat
  ∧ size (users (post_users fault now body db).2) = size (users db)
  ∧ (fault = None →
     ∀ name, to_text (escape (js_get body "name")) = Some name →
     (post_users fault now body db).1
       = error_response
           (if decide (fits 100 name) then
              if decide (fits 100 e) then DupEntry "users.email"
              else TooLong "email"
            else TooLong "name")).
Proof.
  intros Hone Hemail.
  assert (Htaken : users_with_email e db ≠ ∅).
  { apply map_size_non_empty_iff. lia. }
  destruct (insert_user_taken now (escape (js_get body "name")) e db Htaken)
    as (err & Hins & Herr).
  unfold post_users. rewrite Hemail.
  change (escape (JStr e)) with (SText e).
  rewrite (store_on_rejection_refused fault now
             (InsertUser (escape (js_get body "name")) (SText e)) db err
             Hins).
  destruct fault as [f|]; simpl.
  { repeat split; try done. }
  rewrite Hins. simpl. repeat split; try done.
  intros _ name Hname. by rewrite (Herr name Hname).
Qed.

(** *** Creating tasks *)

(** C2. A create-task request whose [user_id] denotes no user of the store
    is answered 500 with an error body, and the store, its tasks table
    included, is exactly as before. *)
Theorem orphan_task_rejected fault now body db :
  (∀ k, row_key (escape (js_get body "user_id")) = Some k →
        users db !! k = None) →
  res_status (post_tasks fault now body db).1 = 500
  ∧ (∃ err, (post_tasks fault now body db).1 = error_response err)
  ∧ (post_tasks fault now body db).2 = db
  ∧ tasks (post_tasks fault now body db).2 = tasks db.
Proof.
  intros Horphan.
  destruct (insert_task_orphan now _ (escape (js_get body "title"))
              (escape (js_get body "description"))
              (escape (js_or (js_get body "status") (JStr "pending")))
              db Horphan) as [err Hins].
  unfold post_tasks.
  rewrite (store_on_rejection_refused fault now
             (InsertTask (escape (js_get body "user_id"))
                (escape (js_get body "title"))
                (escape (js_get body "description"))
                (escape (js_or (js_get body "status") (JStr "pending"))))
             db err Hins).
  destruct fault as [f|]; simpl.
  { repeat split; eauto. }
  rewrite Hins. simpl. repeat split; eauto.
Qed.

(** *** Updating and deleting tasks *)

(** C4. When the path id selects no task of the store, update-task and
    delete-task both answer 200 with the id echoed in the confirmation, and
    the store is unchanged (the pool reaching the server). *)
Theorem missing_task_reports_success now id body db :
  (∀ k, row_key (SText id) = Some k → tasks db !! k = None) →
  put_task None now id body db =
    (mkResponse 200
       (JObj (<["message" := JStr "Task updated"]> {[ "id" := JStr id ]})),
     db)
  ∧ delete_task_req None now id db =
    (mkResponse 200
       (JObj (<["message" := JStr "Task deleted"]> {[ "id" := JStr id ]})),
     db)
  ∧ size (tasks (put_task None now id body db).2) = size (tasks db)
  ∧ size (tasks (delete_task_req None now id db).2) = size (tasks db).
Proof.
  intros Hmiss.
  assert (Hput : put_task None now id body db =
    (mkResponse 200
       (JObj (<["message" := JStr "Task updated"]> {[ "id" := JStr id ]})),
     db)).
  { unfold put_task. rewrite pool_query_reachable. simpl.
    by rewrite (update_task_missing _ _ _ _ _ _ Hmiss). }
  assert (Hdel : delete_task_req None now id db =
    (mkResponse 200
       (JObj (<["message" := JStr "Task deleted"]> {[ "id" := JStr id ]})),
     db)).
  { unfold delete_task_req. rewrite pool_query_reachable. simpl.
    by rewrite (delete_task_missing _ _ Hmiss). }
  rewrite Hput, Hdel. done.
Qed.




Lemma to_description_fits v :
  (∀ s, to_text v = Some s → fits 65535 s) →
  to_description v = Ok (to_text v).
Proof.
  intros Hfit. apply to_description_Ok. split; [done|].
  intros s Hs. by apply Hfit.
Qed.



(** A create-task request for an existing owner, with a title and a
    description that fit their columns, whose status is absent or falsy: the
    row is stored under the generated id with status [pending], and the
    answer is 201 with the body spread over the id. *)
Lemma post_tasks_created now body db k u title :
  row_key (escape (js_get body "user_id")) = Some k →
  users db !! k = Some u →
  to_text (escape (js_get body "title")) = Some title →
  fits 200 title →
  (∀ s, to_text (escape (js_get body "description")) = Some s →
        fits 65535 s) →
  truthy (js_get body "status") = false →
  post_tasks None now body db =
    (mkResponse 201
       (JObj (js_spread_over "id" (JNum (next_task_id db)) body)),
     mkDb (users db)
          (<[next_task_id db :=
               mkTask k title
                      (to_text (escape (js_get body "description")))
                      (Some pending) now now]> (tasks db))
          (next_user_id db) (next_task_id db + 1)).
Proof.
  intros Hk Hu Htext Hfit Hdesc Hfalsy.
  assert (Ht : to_varchar "title" 200 (escape (js_get body "title"))
               = Ok title) by (by apply to_varchar_Ok).
  unfold post_tasks, js_or. rewrite Hfalsy, pool_query_reachable. simpl.
  by rewrite (insert_task_Ok now _ _ _ _ db k u title _ (Some pending)
                Hk Hu Ht (to_description_fits _ Hdesc) to_status_pending).
Qed.

(** When the body has no field [id], the answer carries the generated id. *)
Lemma spread_keeps_generated_id (body : jsobj) v :
  body !! "id" = None → js_spread_over "id" v body !! "id" = Some v.
Proof.
  intros Hnone. unfold js_spread_over.
  rewrite lookup_union_r by done. by rewrite lookup_singleton_eq.
Qed.

(** Every field of the body is echoed as submitted. *)
Lemma spread_echoes_body (body : jsobj) v k w :
  body !! k = Some w → js_spread_over "id" v body !! k = Some w.
Proof. intros Hk. unfold js_spread_over. by apply lookup_union_Some_l. Qed.

(** A status absent from the body and a falsy status in the body reach the
    store as the same statement. *)
Lemma falsy_status_statement body v :
  truthy v = false →
  statement_of (PostTasks (<["status" := v]> body))
    = statement_of (PostTasks (delete "status" body)).
Proof.
  intros Hfalsy. simpl. unfold js_get, js_or.
  rewrite lookup_insert_eq, lookup_delete_eq. simpl. rewrite Hfalsy. simpl.
  by rewrite !lookup_insert_ne, !lookup_delete_ne by done.
Qed.

(** The values JavaScript takes for false. *)
Lemma truthy_false v :
  truthy v = false ↔
  v = JUndefined ∨ v = JNull ∨ v = JBool false ∨ v = JNum 0 ∨ v = JStr "".
Proof.
  split.
  - destruct v as [| |[]|n|s]; simpl; try discriminate; auto 6.
    + destruct (Z.eqb_spec n 0) as [->|]; [auto 6 | discriminate].
    + destruct (String.eqb_spec s "") as [->|]; [auto 6 | discriminate].
  - intros [->|[->|[->|[->| ->]]]]; reflexivity.
Qed.

(** C10. A create-task request whose body carries one of the falsy statuses
    (the empty string, null, false, 0) sends ['pending'] to the store, which
    its ENUM accepts; the store ends as for the same request without the
    field and the answer has the same code, so the falsy status is never a
    cause of rejection; and when the owner exists and the title and the
    description fit their columns, the answer is 201 and the stored status
    is [pending].  A truthy status is what reaches the ENUM check, and the
    statuses that are not truthy are exactly these four and [undefined]. *)
Theorem falsy_status_stored_pending fault now body db v :
  body !! "status" = Some v →
  v = JStr "" ∨ v = JNull ∨ v = JBool false ∨ v = JNum 0 →
  (∃ vu vt vd,
     statement_of (PostTasks body) = InsertTask vu vt vd (SText "pending"))
  ∧ to_status (SText "pending") = Ok (Some pending)
  ∧ (post_tasks fault now body db).2
      = (post_tasks fault now (delete "status" body) db).2
  ∧ res_status (post_tasks fault now body db).1
      = res_status (post_tasks fault now (delete "status" body) db).1
  ∧ (∀ row, res_status (post_tasks fault now body db).1 = 201 →
       tasks (post_tasks fault now body db).2 !! next_task_id db = Some row →
       t_status row = Some pending)
  ∧ (∀ k u title, fault = None →
       row_key (escape (js_get body "user_id")) = Some k →
       users db !! k = Some u →
       to_text (escape (js_get body "title")) = Some title →
       fits 200 title →
       (∀ s, to_text (escape (js_get body "description")) = Some s →
             fits 65535 s) →
       res_status (post_tasks fault now body db).1 = 201
       ∧ t_status <$> tasks (post_tasks fault now body db).2
                        !! next_task_id db = Some (Some pending))
  ∧ (∀ body' : jsobj, truthy (js_get body' "status") = true →
       ∃ vu vt vd,
         statement_of (PostTasks body')
           = InsertTask vu vt vd (escape (js_get body' "status")))
  ∧ (∀ v', truthy v' = false ↔
       v' = JUndefined ∨ v' = JNull ∨ v' = JBool false ∨ v' = JNum 0
       ∨ v' = JStr "").
Proof.
  intros Hv Hlisted.
  assert (Hfalsy : truthy v = false).
  { by destruct Hlisted as [->|[->|[->| ->]]]. }
  assert (Hget : js_get body "status" = v) by (unfold js_get; by rewrite Hv).
  assert (Hbody : body = <["status" := v]> body) by (by rewrite insert_id).
  split.
  { simpl. unfold js_or. rewrite Hget, Hfalsy. eauto. }
  split; [reflexivity|].
  assert (Hsame : (post_tasks fault now body db).2
                    = (post_tasks fault now (delete "status" body) db).2
                  ∧ res_status (post_tasks fault now body db).1
                    = res_status
                        (post_tasks fault now (delete "status" body) db).1).
  { pose proof (falsy_status_statement body v Hfalsy) as Hstmt.
    rewrite <- Hbody in Hstmt. simpl in Hstmt.
    unfold post_tasks. cbv zeta. rewrite Hstmt.
    by destruct (pool_query _ _ _ _) as [[r db']|err]. }
  split; [apply Hsame|]. split; [apply Hsame|].
  split.
  { intros row. unfold post_tasks, js_or. rewrite Hget, Hfalsy.
    destruct fault as [f|]; simpl; [discriminate|].
    unfold insert_task.
    destruct (to_int _ _) as [uid|]; simpl; [|discriminate].
    destruct (to_varchar _ _ _); simpl; [|discriminate].
    destruct (to_description _); simpl; [|discriminate].
    destruct (users db !! uid); simpl; [|discriminate].
    intros _. rewrite lookup_insert_eq. by intros [= <-]. }
  split.
  { intros k u title -> Hk Hu Htext Hfit Hdesc.
    assert (Hf : truthy (js_get body "status") = false) by (by rewrite Hget).
    rewrite (post_tasks_created now body db k u title Hk Hu Htext Hfit Hdesc
               Hf).
    simpl. split; [done|]. by rewrite lookup_insert_eq. }
  split; [|apply truthy_false].
  intros body' Htruthy. simpl. unfold js_or. rewrite Htruthy. eauto.
Qed.

(** *** Listing tasks *)

#[local] Instance tasks_desc_total : Total tasks_desc.
Proof. intros a b. unfold tasks_desc. lia. Qed.

#[local] Instance tasks_desc_trans : Transitive tasks_desc.
Proof. intros a b c. unfold tasks_desc. lia. Qed.

Lemma join_user_Some db kt r :
  join_user db kt = Some r ↔
  ∃ u, users db !! t_user_id kt.2 = Some u
       ∧ r = mkTaskRow kt.1 kt.2 (u_name u) (u_email u).
Proof.
  unfold join_user.
  destruct (users db !! t_user_id kt.2) as [u|]; simpl.
  - split; [intros [= <-]; eauto | intros (u' & [= <-] & ->); done].
  - split; [discriminate | intros (u' & [=] & _)].
Qed.

Lemma join_user_id db kt r : join_user db kt = Some r → r_id r = kt.1.
Proof. intros (u & _ & ->)%join_user_Some. done. Qed.

(** The join keeps at most one row per task. *)
Lemma join_ids_NoDup db (l : list (Z * Task)) :
  NoDup l.*1 → NoDup (r_id <$> omap (join_user db) l).
Proof.
  induction l as [|kt l IH]; simpl; [constructor|].
  intros [Hfresh Hrest]%NoDup_cons.
  destruct (join_user db kt) as [r|] eqn:Hjoin; simpl; [|auto].
  apply NoDup_cons. split; [|auto].
  rewrite (join_user_id _ _ _ Hjoin).
  intros (r' & Hid & (kt' & Hin & Hjoin')%list_elem_of_omap)%list_elem_of_fmap.
  apply Hfresh. apply list_elem_of_fmap. exists kt'.
  split; [|done]. rewrite Hid. by apply join_user_id in Hjoin'.
Qed.

Lemma elem_of_select_tasks db r :
  r ∈ select_tasks db ↔
  ∃ k t u, tasks db !! k = Some t
           ∧ users db !! t_user_id t = Some u
           ∧ r = mkTaskRow k t (u_name u) (u_email u).
Proof.
  unfold select_tasks. rewrite merge_sort_Permutation, list_elem_of_omap.
  split.
  - intros ([k t] & Hin%elem_of_map_to_list & (u & Hu & ->)%join_user_Some).
    by exists k, t, u.
  - intros (k & t & u & Ht & Hu & ->). exists (k, t).
    split; [by apply elem_of_map_to_list|].
    apply join_user_Some. by exists u.
Qed.

(** C3. When the pool reaches the server, listing tasks answers 200 with
    rows that are exactly the tasks whose [user_id] is the id of a user of
    the store, each once, each carrying that user's name and email as
    [user_name] and [user_email], in descending order of the tasks' creation
    time. *)
Theorem list_tasks_joined_and_ordered now db :
  get_tasks None now db
    = (mkResponse 200 (JRows (TaskRows (select_tasks db))), db)
  ∧ (∀ r, r ∈ select_tasks db ↔
       ∃ k t u, tasks db !! k = Some t
                ∧ users db !! t_user_id t = Some u
                ∧ r = mkTaskRow k t (u_name u) (u_email u))
  ∧ NoDup (r_id <$> select_tasks db)
  ∧ StronglySorted tasks_desc (select_tasks db).
Proof.
  split; [reflexivity|]. split; [apply elem_of_select_tasks|]. split.
  - unfold select_tasks. rewrite merge_sort_Permutation.
    apply join_ids_NoDup, NoDup_fst_map_to_list.
  - apply StronglySorted_merge_sort; apply _.
Qed.

(** *** Ownership *)

(** A handler leaves the store alone or leaves what its statement made of
    it. *)
Lemma handle_store fault now req db :
  (handle fault now req db).2 = db
  ∨ ∃ r, exec now (statement_of req) db = Ok (r, (handle fault now req db).2).
Proof.
  destruct req; unfold_handlers; cbv zeta; simpl statement_of;
    (destruct (pool_query _ _ _ _) as [[r db']|err] eqn:Hq; simpl;
     [right; exists r; exact (pool_query_Ok fault _ _ _ _ _ Hq)
     |apply store_on_rejection_cases]).
Qed.

(** No statement leaves a task without its owner. *)
Lemma exec_owners_exist now q db r db' :
  owners_exist db → exec now q db = Ok (r, db') → owners_exist db'.
Proof.
  intros Hinv. destruct q; simpl.
  - by intros [= _ <-].
  - by intros [= _ <-].
  - unfold insert_user.
    destruct (to_varchar "name" 100 name); simpl; [|discriminate].
    destruct (to_varchar "email" 100 email); simpl; [|discriminate].
    destruct (decide _); [|discriminate].
    intros [= _ <-] k t Ht. simpl in *.
    apply lookup_insert_is_Some'. right. by eapply Hinv.
  - by intros [= _ <-].
  - unfold insert_task.
    destruct (to_int "user_id" user_id) as [uid|]; simpl; [|discriminate].
    destruct (to_varchar "title" 200 title); simpl; [|discriminate].
    destruct (to_description description); simpl; [|discriminate].
    destruct (to_status status); simpl; [|discriminate].
    destruct (users db !! uid) as [u|] eqn:Hu; [|discriminate].
    intros [= _ <-] k t. simpl.
    rewrite lookup_insert. case_decide.
    + intros [= <-]. simpl. by rewrite Hu.
    + apply Hinv.
  - unfold update_task.
    destruct (row_key id) as [k|]; simpl; [|by intros [= _ <-]].
    destruct (tasks db !! k) as [row|] eqn:Hrow; simpl; [|by intros [= _ <-]].
    destruct (to_varchar "title" 200 title); simpl; [|discriminate].
    destruct (to_description description); simpl; [|discriminate].
    destruct (to_status status); simpl; [|discriminate].
    destruct (decide _); [by intros [= _ <-]|].
    intros [= _ <-] j t. simpl.
    rewrite lookup_insert. case_decide.
    + intros [= <-]. simpl. by eapply Hinv.
    + apply Hinv.
  - unfold delete_task.
    destruct (row_key id) as [k|]; simpl; [|by intros [= _ <-]].
    destruct (tasks db !! k) as [row|] eqn:Hrow; simpl; [|by intros [= _ <-]].
    intros [= _ <-] j t. simpl. intros [_ Ht]%lookup_delete_Some.
    by eapply Hinv.
  - unfold delete_user.
    destruct (row_key id) as [k|]; simpl; [|by intros [= _ <-]].
    destruct (users db !! k) as [u|] eqn:Hu; simpl; [|by intros [= _ <-]].
    intros [= _ <-] j t. simpl.
    intros [Ht Hother]%map_lookup_filter_Some. simpl in Hother.
    rewrite lookup_delete_ne by done. by eapply Hinv.
Qed.

Lemma reachable_owners_exist db : reachable db → owners_exist db.
Proof.
  induction 1 as [|fault now req db _ IH|now vid db r db' _ IH Hexec].
  - intros k t. simpl. by rewrite lookup_empty.
  - destruct (handle_store fault now req db) as [->|[r Hexec]]; [done|].
    by eapply exec_owners_exist.
  - by eapply exec_owners_exist.
Qed.

(** C7. In every reachable store each task's [user_id] is the id of a user
    of the store; and deleting a user of it is one statement after which the
    user is gone, the tasks are those of the other users, no task, and no
    row of the task listing, is owned by the deleted user, and every
    remaining task still has its owner. *)
Theorem tasks_never_outlive_owner db :
  reachable db →
  owners_exist db
  ∧ ∀ now k u, users db !! k = Some u →
      ∃ db', exec now (DeleteUser (SInt k)) db = Ok (OkPacket 0 1, db')
        ∧ users db' = delete k (users db)
        ∧ tasks db' = filter (λ kt, t_user_id kt.2 ≠ k) (tasks db)
        ∧ (∀ j t, tasks db' !! j = Some t → t_user_id t ≠ k)
        ∧ (∀ j t, tasks db !! j = Some t → t_user_id t ≠ k →
                  tasks db' !! j = Some t)
        ∧ (∀ r, r ∈ select_tasks db' → t_user_id (r_task r) ≠ k)
        ∧ owners_exist db'.
Proof.
  intros Hreach. pose proof (reachable_owners_exist db Hreach) as Hinv.
  split; [done|]. intros now k u Hu.
  eexists. simpl. unfold delete_user. simpl. rewrite Hu. simpl.
  split; [reflexivity|]. simpl. split; [done|]. split; [done|].
  assert (Hgone : ∀ j t,
    filter (λ kt : Z * Task, t_user_id kt.2 ≠ k) (tasks db) !! j = Some t →
    t_user_id t ≠ k).
  { by intros j t [_ Hother]%map_lookup_filter_Some. }
  split; [exact Hgone|]. split.
  { intros j t Ht Hother. by apply map_lookup_filter_Some. }
  split.
  { intros r (j & t & u' & Ht & _ & ->)%elem_of_select_tasks. simpl in *.
    by eapply Hgone. }
  eapply (exec_owners_exist now (DeleteUser (SInt k))); [exact Hinv|].
  simpl. unfold delete_user. simpl. by rewrite Hu.
Qed.

(** *** Failures *)




(** *** Start-up *)

(** C6. The process listens, and so answers requests, only when both
    table-creation statements have succeeded, and then only after both were
    issued; when either fails the process exits with code 1, never having
    listened, and answers no request. *)
Theorem startup_gates_requests ddl_users ddl_tasks db :
  (ddl_users = None → ddl_tasks = None →
   startup ddl_users ddl_tasks db
     = ([EvCreatePool; EvQuery "users"; EvQuery "tasks"; EvLog;
         EvListen; EvLog], Serving db))
  ∧ (ddl_users ≠ None ∨ ddl_tasks ≠ None →
     (startup ddl_users ddl_tasks db).2 = Exited 1
     ∧ ¬ (EvListen ∈ (startup ddl_users ddl_tasks db).1)
     ∧ last (startup ddl_users ddl_tasks db).1 = Some (EvExit 1)
     ∧ ∀ fault now req,
         serve fault now req (startup ddl_users ddl_tasks db).2 = None)
  ∧ (∀ pre post,
       (startup ddl_users ddl_tasks db).1 = (pre ++ EvListen :: post)%list →
       ddl_users = None ∧ ddl_tasks = None
       ∧ EvQuery "users" ∈ pre ∧ EvQuery "tasks" ∈ pre)
  ∧ (∀ fault now req,
       is_Some (serve fault now req (startup ddl_users ddl_tasks db).2) →
       ddl_users = None ∧ ddl_tasks = None).
Proof using int_of_text server_message.
  clear decode_param serve_static.
  split; [by intros -> ->|].
  destruct ddl_users as [e1|], ddl_tasks as [e2|]; simpl.
  1-3: split;
    [intros _; repeat split; try done;
     rewrite list_elem_of_In; simpl; intuition discriminate|];
    split; [|by intros ??? [? [=]]];
    intros pre post Heq;
    do 7 (try (destruct pre as [|? pre]; simplify_eq/=)).
  split; [by intros [|]|]. split; [|done].
  intros pre post Heq.
  do 7 (try (destruct pre as [|? pre]; simplify_eq/=)).
  repeat split; rewrite list_elem_of_In; simpl; auto.
Qed.

(** ** Further properties of the handlers *)

(** *** Invariants of every reachable store *)

(** What every statement keeps and the fresh tables have, every reachable
    store has. *)
Lemma reachable_invariant (P : Db → Prop) :
  P empty_db →
  (∀ now q db r db', P db → exec now q db = Ok (r, db') → P db') →
  ∀ db, reachable db → P db.
Proof.
  intros Hinit Hstep db.
  induction 1 as [|fault now req db _ IH|now vid db r db' _ IH Hexec].
  - done.
  - destruct (handle_store fault now req db) as [->|[r Hexec]]; [done|].
    by eapply Hstep.
  - by eapply Hstep.
Qed.

Lemma exec_ids_below_counters now q db r db' :
  ids_below_counters db → exec now q db = Ok (r, db') →
  ids_below_counters db'.
Proof.
  intros (Hu1 & Ht1 & Hu & Ht). destruct q; simpl.
  - by intros [= _ <-].
  - by intros [= _ <-].
  - unfold insert_user.
    destruct (to_varchar "name" 100 name); simpl; [|discriminate].
    destruct (to_varchar "email" 100 email); simpl; [|discriminate].
    destruct (decide _); [|discriminate].
    intros [= _ <-]. unfold ids_below_counters. simpl.
    split; [lia|]. split; [done|]. split; [|done].
    intros k u. rewrite lookup_insert. case_decide; [lia|].
    intros Hk%Hu. lia.
  - by intros [= _ <-].
  - unfold insert_task.
    destruct (to_int "user_id" user_id) as [uid|]; simpl; [|discriminate].
    destruct (to_varchar "title" 200 title); simpl; [|discriminate].
    destruct (to_description description); simpl; [|discriminate].
    destruct (to_status status); simpl; [|discriminate].
    destruct (users db !! uid) as [u|] eqn:Hown; [|discriminate].
    intros [= _ <-]. unfold ids_below_counters. simpl.
    split; [done|]. split; [lia|]. split; [done|].
    intros k t. rewrite lookup_insert. case_decide; [lia|].
    intros Hk%Ht. lia.
  - unfold update_task.
    destruct (row_key id) as [k|]; simpl; [|by intros [= _ <-]].
    destruct (tasks db !! k) as [row|] eqn:Hrow; simpl; [|by intros [= _ <-]].
    destruct (to_varchar "title" 200 title); simpl; [|discriminate].
    destruct (to_description description); simpl; [|discriminate].
    destruct (to_status status); simpl; [|discriminate].
    destruct (decide _); [by intros [= _ <-]|].
    intros [= _ <-]. split; [done|]. split; [done|]. split; [done|].
    simpl. intros j t. rewrite lookup_insert. case_decide.
    + intros _. subst j. by eapply Ht.
    + apply Ht.
  - unfold delete_task.
    destruct (row_key id) as [k|]; simpl; [|by intros [= _ <-]].
    destruct (tasks db !! k) as [row|] eqn:Hrow; simpl; [|by intros [= _ <-]].
    intros [= _ <-]. split; [done|]. split; [done|]. split; [done|].
    simpl. intros j t [_ Hj]%lookup_delete_Some. by eapply Ht.
  - unfold delete_user.
    destruct (row_key id) as [k|]; simpl; [|by intros [= _ <-]].
    destruct (users db !! k) as [u|] eqn:Hrow; simpl; [|by intros [= _ <-]].
    intros [= _ <-]. split; [done|]. split; [done|]. simpl. split.
    + intros j u' [_ Hj]%lookup_delete_Some. by eapply Hu.
    + intros j t [Hj _]%map_lookup_filter_Some. by eapply Ht.
Qed.

Lemma reachable_ids_below db : reachable db → ids_below_counters db.
Proof.
  apply reachable_invariant.
  - unfold ids_below_counters. simpl.
    split; [lia|]. split; [lia|].
    split; intros k x Hk; by rewrite lookup_empty in Hk.
  - intros now q d r d'. apply exec_ids_below_counters.
Qed.

(** The next ids are free. *)
Lemma ids_below_fresh db :
  ids_below_counters db →
  users db !! next_user_id db = None ∧ tasks db !! next_task_id db = None.
Proof.
  intros (_ & _ & Hu & Ht). split.
  - destruct (users db !! next_user_id db) as [u|] eqn:Hl; [|done].
    apply Hu in Hl. lia.
  - destruct (tasks db !! next_task_id db) as [t|] eqn:Hl; [|done].
    apply Ht in Hl. lia.
Qed.

Lemma users_with_email_empty e db :
  users_with_email e db = ∅ ↔ ∀ k u, users db !! k = Some u → u_email u ≠ e.
Proof.
  unfold users_with_email. rewrite map_empty. split.
  - intros Hnone k u Hk He. specialize (Hnone k).
    apply map_lookup_filter_None in Hnone as [Hnone|Hnone]; [congruence|].
    by apply (Hnone u).
  - intros Hnone k. apply map_lookup_filter_None. right.
    intros u Hk. simpl. by apply (Hnone k).
Qed.

Lemma exec_emails_unique now q db r db' :
  emails_unique db → exec now q db = Ok (r, db') → emails_unique db'.
Proof.
  intros Huniq. destruct q; simpl.
  - by intros [= _ <-].
  - by intros [= _ <-].
  - unfold insert_user.
    destruct (to_varchar "name" 100 name) as [n|]; simpl; [|discriminate].
    destruct (to_varchar "email" 100 email) as [e|]; simpl; [|discriminate].
    destruct (decide _) as [Hfree|]; [|discriminate].
    intros [= _ <-] k1 k2 u1 u2. simpl.
    pose proof (proj1 (users_with_email_empty e db) Hfree) as Hnone.
    rewrite !lookup_insert. repeat case_decide; subst.
    + done.
    + intros [= <-] H2 He. simpl in He. by destruct (Hnone _ _ H2).
    + intros H1 [= <-] He. simpl in He. by destruct (Hnone _ _ H1).
    + apply Huniq.
  - by intros [= _ <-].
  - unfold insert_task.
    destruct (to_int "user_id" user_id) as [uid|]; simpl; [|discriminate].
    destruct (to_varchar "title" 200 title); simpl; [|discriminate].
    destruct (to_description description); simpl; [|discriminate].
    destruct (to_status status); simpl; [|discriminate].
    destruct (users db !! uid) as [u|] eqn:Hown; [|discriminate].
    by intros [= _ <-].
  - unfold update_task.
    destruct (row_key id) as [k|]; simpl; [|by intros [= _ <-]].
    destruct (tasks db !! k) as [row|] eqn:Hrow; simpl; [|by intros [= _ <-]].
    destruct (to_varchar "title" 200 title); simpl; [|discriminate].
    destruct (to_description description); simpl; [|discriminate].
    destruct (to_status status); simpl; [|discriminate].
    destruct (decide _); by intros [= _ <-].
  - unfold delete_task.
    destruct (row_key id) as [k|]; simpl; [|by intros [= _ <-]].
    destruct (tasks db !! k) as [row|] eqn:Hrow; simpl; by intros [= _ <-].
  - unfold delete_user.
    destruct (row_key id) as [k|]; simpl; [|by intros [= _ <-]].
    destruct (users db !! k) as [u|] eqn:Hrow; simpl; [|by intros [= _ <-]].
    intros [= _ <-] k1 k2 u1 u2. simpl.
    intros [_ H1]%lookup_delete_Some [_ H2]%lookup_delete_Some.
    by eapply Huniq.
Qed.

(** X4. In every store reached through the API no two users hold the same
    email: at most one user holds any given email. *)
Theorem reachable_emails_unique db :
  reachable db →
  emails_unique db ∧ ∀ e, (size (users_with_email e db) ≤ 1)%nat.
Proof.
  intros Hreach.
  assert (Huniq : emails_unique db).
  { revert db Hreach. apply reachable_invariant.
    - intros k1 k2 u1 u2 Hk. simpl in Hk. by rewrite lookup_empty in Hk.
    - intros now q d r d'. apply exec_emails_unique. }
  split; [done|]. intros e.
  destruct (map_choose_or_empty (users_with_email e db))
    as [(k & u & Hk)|Hempty]; [|rewrite Hempty, map_size_empty; lia].
  assert (users_with_email e db = {[ k := u ]}) as ->.
  { apply map_eq. intros j. destruct (decide (j = k)) as [->|Hne].
    - by rewrite lookup_singleton_eq.
    - rewrite lookup_singleton_ne by done.
      destruct (users_with_email e db !! j) as [u'|] eqn:Hj; [|done].
      unfold users_with_email in Hk, Hj.
      apply map_lookup_filter_Some in Hk as [Hk Hek].
      apply map_lookup_filter_Some in Hj as [Hj Hej]. simpl in *.
      destruct Hne. eapply Huniq; [exact Hj | exact Hk | congruence]. }
  rewrite map_size_singleton. lia.
Qed.

(** X5. In every reachable store the ids are positive and below the
    counters of their tables, so the id the next insert will be given
    belongs to no row. *)
Theorem reachable_ids_fresh db :
  reachable db →
  (∀ k u, users db !! k = Some u → 1 ≤ k < next_user_id db)
  ∧ (∀ k t, tasks db !! k = Some t → 1 ≤ k < next_task_id db)
  ∧ users db !! next_user_id db = None
  ∧ tasks db !! next_task_id db = None.
Proof.
  intros Hreach. pose proof (reachable_ids_below db Hreach) as Hinv.
  destruct (ids_below_fresh db Hinv) as [Hu Ht].
  destruct Hinv as (_ & _ & Hku & Hkt). done.
Qed.

(** *** Listing users *)

#[local] Instance users_desc_total : Total users_desc.
Proof. intros a b. unfold users_desc. lia. Qed.

#[local] Instance users_desc_trans : Transitive users_desc.
Proof. intros a b c. unfold users_desc. lia. Qed.

Lemma elem_of_select_users db k u :
  (k, u) ∈ select_users db ↔ users db !! k = Some u.
Proof.
  unfold select_users. rewrite merge_sort_Permutation.
  apply elem_of_map_to_list.
Qed.

(** X1. When the pool reaches the server, listing users answers 200 with
    exactly the rows of the users table, each once, newest first, and leaves
    the store as it was. *)
Theorem list_users_all_and_ordered now db :
  get_users None now db
    = (mkResponse 200 (JRows (UserRows (select_users db))), db)
  ∧ (∀ k u, (k, u) ∈ select_users db ↔ users db !! k = Some u)
  ∧ NoDup (select_users db).*1
  ∧ length (select_users db) = size (users db)
  ∧ StronglySorted users_desc (select_users db).
Proof.
  split; [reflexivity|]. split; [apply elem_of_select_users|].
  unfold select_users. split; [|split].
  - rewrite merge_sort_Permutation. apply NoDup_fst_map_to_list.
  - rewrite merge_sort_Permutation. apply length_map_to_list.
  - apply StronglySorted_merge_sort; apply _.
Qed.

(** *** Creating users *)

Lemma to_text_varchar col width v s :
  to_text v = Some s → fits width s → to_varchar col width v = Ok s.
Proof. intros Hs Hfit. by apply to_varchar_Ok. Qed.



(** X3. A create-user request whose name or email is absent or null is
    rejected by NOT NULL: the answer is 500 with the message of that error,
    the name being checked first (a name longer than its column is what is
    reported when the email is missing too), and the store is unchanged. *)
Theorem create_user_missing_field now body db :
  (escape (js_get body "name") = SNull →
   post_users None now body db = (error_response (NotNull "name"), db))
  ∧ (∀ name, to_text (escape (js_get body "name")) = Some name →
     escape (js_get body "email") = SNull →
     post_users None now body db
       = (error_response
            (if decide (fits 100 name) then NotNull "email"
             else TooLong "name"), db)).
Proof.
  unfold post_users. rewrite pool_query_reachable. simpl.
  unfold insert_user, to_varchar.
  split.
  - by intros ->.
  - intros name -> ->. simpl. by case_decide.
Qed.

(** *** Creating tasks *)

(** X6. In a reachable store, a create-task request for an existing owner,
    with a title of at most 200 characters, a description of at most 65,535
    (or none) and a status the ENUM accepts (or none), is answered 201; the
    task is stored under a new id with that owner, title, description and
    status and both timestamps at the time of the insert; the users are
    untouched; and the task listing then holds the new task with its owner's
    name and email, and every row it held before. *)
Theorem create_task_round_trip now body db k u title status :
  reachable db →
  row_key (escape (js_get body "user_id")) = Some k →
  users db !! k = Some u →
  to_text (escape (js_get body "title")) = Some title →
  fits 200 title →
  (∀ s, to_text (escape (js_get body "description")) = Some s →
        fits 65535 s) →
  to_status (escape (js_or (js_get body "status") (JStr "pending")))
    = Ok status →
  let task :=
    mkTask k title (to_text (escape (js_get body "description"))) status
           now now in
  post_tasks None now body db
    = (mkResponse 201
         (JObj (js_spread_over "id" (JNum (next_task_id db)) body)),
       mkDb (users db) (<[next_task_id db := task]> (tasks db))
            (next_user_id db) (next_task_id db + 1))
  ∧ tasks db !! next_task_id db = None
  ∧ size (tasks (post_tasks None now body db).2) = S (size (tasks db))
  ∧ (∀ r, r ∈ select_tasks (post_tasks None now body db).2 ↔
       r = mkTaskRow (next_task_id db) task (u_name u) (u_email u)
       ∨ r ∈ select_tasks db).
Proof.
  intros Hreach Hk Hu Htitle Hfit Hdesc Hstatus task.
  destruct (ids_below_fresh db (reachable_ids_below db Hreach)) as [_ Hnew].
  assert (Hpost : post_tasks None now body db
    = (mkResponse 201
         (JObj (js_spread_over "id" (JNum (next_task_id db)) body)),
       mkDb (users db) (<[next_task_id db := task]> (tasks db))
            (next_user_id db) (next_task_id db + 1))).
  { unfold post_tasks. rewrite pool_query_reachable. simpl.
    by rewrite (insert_task_Ok now _ _ _ _ db k u title _ status Hk Hu
                  (to_text_varchar "title" 200 _ _ Htitle Hfit)
                  (to_description_fits _ Hdesc) Hstatus). }
  rewrite Hpost. simpl. split; [done|]. split; [done|]. split.
  - by apply map_size_insert_None.
  - intros r. rewrite !elem_of_select_tasks. simpl. split.
    + intros (j & t & u' & Hj & Hu' & ->).
      rewrite lookup_insert in Hj. case_decide as Hid.
      * injection Hj as <-. subst j. simpl in Hu'.
        rewrite Hu in Hu'. injection Hu' as <-. by left.
      * right. by exists j, t, u'.
    + intros [->|(j & t & u' & Hj & Hu' & ->)].
      * exists (next_task_id db), task, u.
        by rewrite lookup_insert_eq.
      * exists j, t, u'. split; [|done].
        rewrite lookup_insert_ne; [done|]. congruence.
Qed.

(** X7. A create-task request whose title is absent or null is answered 500
    and leaves the store unchanged, whoever the owner is; when the pool
    reaches the server and [user_id] denotes a number, the failure is the
    NOT NULL of the title. *)
Theorem create_task_missing_title fault now body db :
  escape (js_get body "title") = SNull →
  res_status (post_tasks fault now body db).1 = 500
  ∧ (post_tasks fault now body db).2 = db
  ∧ (∀ k, fault = None →
       row_key (escape (js_get body "user_id")) = Some k →
       (post_tasks fault now body db).1 = error_response (NotNull "title")).
Proof.
  intros Htitle.
  assert (Hins : ∀ vd vs,
    insert_task now (escape (js_get body "user_id")) SNull vd vs db
    = Err (match to_int "user_id" (escape (js_get body "user_id")) with
           | Ok _ => NotNull "title"
           | Err e => e
           end)).
  { intros vd vs. unfold insert_task. by destruct (to_int _ _). }
  unfold post_tasks. rewrite Htitle. cbv zeta.
  rewrite (store_on_rejection_refused fault now
             (InsertTask (escape (js_get body "user_id")) SNull
                (escape (js_get body "description"))
                (escape (js_or (js_get body "status") (JStr "pending"))))
             db _ (Hins _ _)).
  destruct fault as [f|]; simpl; [done|].
  rewrite Hins. simpl. split; [done|]. split; [done|].
  intros k _ Hk%(to_int_row_key "user_id"). by rewrite Hk.
Qed.

(** *** Texts longer than their column *)


(** *** Updating tasks *)

Lemma set_columns_same title desc status row :
  set_columns title desc status row = row ↔
  t_title row = title ∧ t_description row = desc ∧ t_status row = status.
Proof.
  destruct row as [uid ttl d st c up]. unfold set_columns. simpl. split.
  - by intros [= -> -> ->].
  - by intros (-> & -> & ->).
Qed.

(** X8. An update of an existing task with a title of at most 200
    characters, a description of at most 65,535 (or none) and a status the
    ENUM accepts (or none) is answered 200 with the id echoed; the row then
    holds the title, description and status of the body, keeps its owner and
    its creation time, and has its [updated_at] set to the time of the
    update exactly when one of the three columns changed; every other task
    and every user is untouched. *)
Theorem update_task_round_trip now id body db k row title status :
  row_key (SText id) = Some k →
  tasks db !! k = Some row →
  to_text (escape (js_get body "title")) = Some title →
  fits 200 title →
  (∀ s, to_text (escape (js_get body "description")) = Some s →
        fits 65535 s) →
  to_status (escape (js_get body "status")) = Ok status →
  (put_task None now id body db).1
    = mkResponse 200
        (JObj (<["message" := JStr "Task updated"]> {[ "id" := JStr id ]}))
  ∧ users (put_task None now id body db).2 = users db
  ∧ size (tasks (put_task None now id body db).2) = size (tasks db)
  ∧ (∀ j, j ≠ k →
       tasks (put_task None now id body db).2 !! j = tasks db !! j)
  ∧ ∃ row', tasks (put_task None now id body db).2 !! k = Some row'
      ∧ t_title row' = title
      ∧ t_description row' = to_text (escape (js_get body "description"))
      ∧ t_status row' = status
      ∧ t_user_id row' = t_user_id row
      ∧ t_created_at row' = t_created_at row
      ∧ (t_title row = title
         ∧ t_description row = to_text (escape (js_get body "description"))
         ∧ t_status row = status →
         t_updated_at row' = t_updated_at row)
      ∧ (¬ (t_title row = title
            ∧ t_description row
                = to_text (escape (js_get body "description"))
            ∧ t_status row = status) →
         t_updated_at row' = now).
Proof.
  intros Hk Hrow Htitle Hfit Hdesc Hstatus.
  unfold put_task. rewrite pool_query_reachable. simpl.
  unfold update_task. rewrite Hk. simpl. rewrite Hrow. simpl.
  rewrite (to_text_varchar "title" 200 _ _ Htitle Hfit). simpl.
  rewrite (to_description_fits _ Hdesc). simpl.
  rewrite Hstatus. simpl.
  destruct (decide _) as [Hsame|Hdiff]; simpl.
  - split; [done|]. split; [done|]. split; [done|]. split; [done|].
    exists row. apply set_columns_same in Hsame as (? & ? & ?).
    repeat split; try done. intros Hchanged. by destruct Hchanged.
  - split; [done|]. split; [done|]. split.
    { apply map_size_insert_Some. eauto. }
    split; [intros j Hj; by rewrite lookup_insert_ne|].
    eexists. rewrite lookup_insert_eq. split; [reflexivity|]. simpl.
    repeat split; try done.
    intros Hsame%set_columns_same. by destruct Hdiff.
Qed.

(** *** Deleting tasks *)

(** X9. Deleting an existing task is answered 200 with the id echoed; the
    row is gone, there is one task fewer, the other tasks and the users are
    untouched, the task listing loses exactly the rows of that id, and a
    second delete of the same id is answered the same and changes
    nothing. *)
Theorem delete_task_round_trip now later id db k row :
  row_key (SText id) = Some k →
  tasks db !! k = Some row →
  delete_task_req None now id db
    = (mkResponse 200
         (JObj (<["message" := JStr "Task deleted"]> {[ "id" := JStr id ]})),
       mkDb (users db) (delete k (tasks db)) (next_user_id db)
            (next_task_id db))
  ∧ S (size (tasks (delete_task_req None now id db).2)) = size (tasks db)
  ∧ (∀ r, r ∈ select_tasks (delete_task_req None now id db).2 ↔
       r ∈ select_tasks db ∧ r_id r ≠ k)
  ∧ delete_task_req None later id (delete_task_req None now id db).2
    = delete_task_req None now id db.
Proof.
  intros Hk Hrow.
  assert (Hdel : delete_task_req None now id db
    = (mkResponse 200
         (JObj (<["message" := JStr "Task deleted"]> {[ "id" := JStr id ]})),
       mkDb (users db) (delete k (tasks db)) (next_user_id db)
            (next_task_id db))).
  { unfold delete_task_req. rewrite pool_query_reachable. simpl.
    unfold delete_task. rewrite Hk. simpl. by rewrite Hrow. }
  rewrite Hdel. simpl. split; [done|]. split; [|split].
  - rewrite map_size_delete, Hrow.
    assert (size (tasks db) ≠ 0%nat); [|lia].
    apply map_size_non_empty_iff. intros Hempty.
    by rewrite Hempty, lookup_empty in Hrow.
  - intros r. rewrite !elem_of_select_tasks. simpl. split.
    + intros (j & t & u & [Hne Hj]%lookup_delete_Some & Hu & ->).
      split; [by exists j, t, u | done].
    + intros [(j & t & u & Hj & Hu & ->) Hne]. simpl in Hne.
      exists j, t, u. split; [|done].
      apply lookup_delete_Some. split; [congruence | done].
  - unfold delete_task_req. rewrite pool_query_reachable. simpl.
    unfold delete_task. rewrite Hk. simpl. by rewrite lookup_delete_eq.
Qed.

(** *** What the API never does *)

(** What one statement can do to a task that exists: it stays, with its
    owner and creation time, unless the statement deletes it or deletes its
    owner. *)
Lemma exec_task_fate now q db r db' k t :
  ids_below_counters db →
  exec now q db = Ok (r, db') →
  tasks db !! k = Some t →
  match tasks db' !! k with
  | Some t' =>
      t_user_id t' = t_user_id t ∧ t_created_at t' = t_created_at t
  | None =>
      (∃ vid, q = DeleteTask vid ∧ row_key vid = Some k)
      ∨ (∃ vid, q = DeleteUser vid ∧ row_key vid = Some (t_user_id t))
  end.
Proof.
  intros (_ & _ & _ & Hbelow) Hexec Ht. destruct q; simpl in Hexec.
  - injection Hexec as _ <-. by rewrite Ht.
  - injection Hexec as _ <-. by rewrite Ht.
  - unfold insert_user in Hexec.
    destruct (to_varchar "name" 100 name); simpl in Hexec; [|discriminate].
    destruct (to_varchar "email" 100 email); simpl in Hexec; [|discriminate].
    destruct (decide _); [|discriminate].
    injection Hexec as _ <-. simpl. by rewrite Ht.
  - injection Hexec as _ <-. by rewrite Ht.
  - unfold insert_task in Hexec.
    destruct (to_int "user_id" user_id) as [uid|]; simpl in Hexec;
      [|discriminate].
    destruct (to_varchar "title" 200 title); simpl in Hexec; [|discriminate].
    destruct (to_description description); simpl in Hexec; [|discriminate].
    destruct (to_status status); simpl in Hexec; [|discriminate].
    destruct (users db !! uid); [|discriminate].
    injection Hexec as _ <-. simpl.
    rewrite lookup_insert_ne, Ht; [done|].
    apply Hbelow in Ht. lia.
  - unfold update_task in Hexec.
    destruct (row_key id) as [j|]; simpl in Hexec;
      [|injection Hexec as _ <-; by rewrite Ht].
    destruct (tasks db !! j) as [row|] eqn:Hrow; simpl in Hexec;
      [|injection Hexec as _ <-; by rewrite Ht].
    destruct (to_varchar "title" 200 title); simpl in Hexec; [|discriminate].
    destruct (to_description description); simpl in Hexec; [|discriminate].
    destruct (to_status status); simpl in Hexec; [|discriminate].
    destruct (decide _); [injection Hexec as _ <-; by rewrite Ht|].
    injection Hexec as _ <-. simpl. rewrite lookup_insert. case_decide.
    + subst j. rewrite Ht in Hrow. by injection Hrow as <-.
    + by rewrite Ht.
  - unfold delete_task in Hexec.
    destruct (row_key id) as [j|] eqn:Hj; simpl in Hexec;
      [|injection Hexec as _ <-; by rewrite Ht].
    destruct (tasks db !! j) as [row|] eqn:Hrow; simpl in Hexec;
      [|injection Hexec as _ <-; by rewrite Ht].
    injection Hexec as _ <-. simpl. rewrite lookup_delete. case_decide.
    + subst j. left. eauto.
    + by rewrite Ht.
  - unfold delete_user in Hexec.
    destruct (row_key id) as [j|] eqn:Hj; simpl in Hexec;
      [|injection Hexec as _ <-; by rewrite Ht].
    destruct (users db !! j) as [u|] eqn:Hrow; simpl in Hexec;
      [|injection Hexec as _ <-; by rewrite Ht].
    injection Hexec as _ <-. simpl.
    destruct (filter _ (tasks db) !! k) as [t'|] eqn:Hf.
    + apply map_lookup_filter_Some in Hf as [Hf _].
      rewrite Ht in Hf. by injection Hf as <-.
    + apply map_lookup_filter_None in Hf as [Hf|Hf]; [congruence|].
      right. exists id. split; [done|].
      destruct (decide (t_user_id t = j)) as [->|Hne]; [done|].
      by destruct (Hf t Ht).
Qed.

(** X10. Through the API a user, once created, stays as created: whatever
    the request, every user of a reachable store is in the store afterwards,
    unchanged, and a user that is new afterwards was created by a
    create-user request under the next id. *)
Theorem api_keeps_users fault now req db :
  reachable db →
  (∀ k u, users db !! k = Some u →
          users (handle fault now req db).2 !! k = Some u)
  ∧ (∀ k u, users (handle fault now req db).2 !! k = Some u →
            users db !! k = Some u
            ∨ (k = next_user_id db ∧ ∃ body, req = PostUsers body)).
Proof.
  intros Hreach.
  destruct (ids_below_fresh db (reachable_ids_below db Hreach)) as [Hnew _].
  destruct (handle_store fault now req db) as [->|[r Hexec]]; [by auto|].
  revert Hexec. generalize ((handle fault now req db).2). intros db'.
  destruct req; simpl;
    try (intros [= _ <-]; by auto).
  - unfold insert_user.
    destruct (to_varchar "name" 100 _); simpl; [|discriminate].
    destruct (to_varchar "email" 100 _); simpl; [|discriminate].
    destruct (decide _); [|discriminate].
    intros [= _ <-]. simpl. split.
    + intros k u Hk. rewrite lookup_insert_ne; [done|]. congruence.
    + intros k u. rewrite lookup_insert. case_decide; [|by left].
      intros _. right. eauto.
  - unfold insert_task.
    destruct (to_int "user_id" _) as [uid|]; simpl; [|discriminate].
    destruct (to_varchar "title" 200 _); simpl; [|discriminate].
    destruct (to_description _); simpl; [|discriminate].
    destruct (to_status _); simpl; [|discriminate].
    destruct (users db !! uid); [|discriminate].
    intros [= _ <-]. by auto.
  - unfold update_task.
    destruct (row_key _ ≫= _) as [[j row]|]; [|intros [= _ <-]; by auto].
    destruct (to_varchar "title" 200 _); simpl; [|discriminate].
    destruct (to_description _); simpl; [|discriminate].
    destruct (to_status _); simpl; [|discriminate].
    destruct (decide _); intros [= _ <-]; by auto.
  - unfold delete_task.
    destruct (row_key _ ≫= _) as [[j row]|]; intros [= _ <-]; by auto.
Qed.

(** X11. For the requests of this development, whose bodies hold scalar
    fields only, no request of the API changes the owner or the creation
    time of a task, and a task leaves the store only by a delete-task
    request for its id.  A body field that is itself an object or an array
    is not covered: the driver expands such a value into a list of column
    assignments, which may name [user_id]. *)
Theorem api_keeps_task_identity fault now req db k t :
  reachable db →
  tasks db !! k = Some t →
  match tasks (handle fault now req db).2 !! k with
  | Some t' =>
      t_user_id t' = t_user_id t ∧ t_created_at t' = t_created_at t
  | None => ∃ id, req = DeleteTaskReq id ∧ row_key (SText id) = Some k
  end.
Proof.
  intros Hreach Ht.
  destruct (handle_store fault now req db) as [->|[r Hexec]].
  { by rewrite Ht. }
  pose proof (exec_task_fate _ _ _ _ _ k t
                (reachable_ids_below db Hreach) Hexec Ht) as Hfate.
  destruct (tasks (handle fault now req db).2 !! k); [done|].
  destruct Hfate as [(vid & Hq & Hk)|(vid & Hq & _)].
  - destruct req; try discriminate Hq. simpl in Hq.
    injection Hq as <-. eauto.
  - destruct req; discriminate Hq.
Qed.

(** X12. The status code tells how the statement went: 500 when it failed,
    201 when an insert of the two create routes succeeded, 200 when any
    other statement succeeded. *)
Theorem status_code_of_outcome fault now req db :
  match pool_query fault now (statement_of req) db with
  | Err _ => res_status (handle fault now req db).1 = 500
  | Ok _ =>
      res_status (handle fault now req db).1 =
        match req with
        | PostUsers _ | PostTasks _ => 201
        | _ => 200
        end
  end.
Proof.
  destruct req; unfold_handlers; simpl statement_of;
    by destruct (pool_query _ _ _ _) as [[r db']|e].
Qed.

(** *** Start-up, statement by statement *)

(** X15. [initDatabase] creates [users] first; it issues the DDL of [tasks]
    exactly when that of [users] succeeded, rejects with the error of the
    first statement that fails, and logs success only when both succeeded. *)
Theorem initDatabase_in_order ddl_users ddl_tasks :
  (∃ rest, (initDatabase ddl_users ddl_tasks).1
             = EvCreatePool :: EvQuery "users" :: rest)
  ∧ (EvQuery "tasks" ∈ (initDatabase ddl_users ddl_tasks).1
     ↔ ddl_users = None)
  ∧ (∀ e, (initDatabase ddl_users ddl_tasks).2 = Err e ↔
          ddl_users = Some e ∨ (ddl_users = None ∧ ddl_tasks = Some e))
  ∧ (EvLog ∈ (initDatabase ddl_users ddl_tasks).1
     ↔ (initDatabase ddl_users ddl_tasks).2 = Ok ()).
Proof using int_of_text server_message.
  clear decode_param serve_static.
  destruct ddl_users as [e1|], ddl_tasks as [e2|]; simpl;
    (split; [eauto|]);
    (split; [rewrite list_elem_of_In; simpl; intuition discriminate|]);
    (split;
     [intros e; split;
      [intros [= ->]; auto
      |intros [[= ->]|[[=] [=]]]; subst; done]
     |rewrite list_elem_of_In; simpl; intuition discriminate]).
Qed.

End Server.

(** ** The properties on the concrete server *)

Lemma duplicate_email_rejected_alice :
  size (users_with_email "alice@example.com" db_alice) = 1%nat
  ∧ js_get body_alice_again "email" = JStr "alice@example.com"
  ∧ res_status
      (post_users decimal_int mysql_message None 50 body_alice_again
         db_alice).1 = 500
  ∧ (post_users decimal_int mysql_message None 50 body_alice_again
       db_alice).2 = db_alice.
Proof.
  assert (Hone : size (users_with_email "alice@example.com" db_alice) = 1%nat)
    by (vm_compute; reflexivity).
  assert (Hemail : js_get body_alice_again "email" = JStr "alice@example.com")
    by (vm_compute; reflexivity).
  split; [exact Hone|]. split; [exact Hemail|].
  destruct (duplicate_email_rejected decimal_int mysql_message None 50
              body_alice_again db_alice "alice@example.com" Hone Hemail)
    as (H500 & Hdb & _).
  split; [exact H500 | exact Hdb].
Defined.

Lemma orphan_task_rejected_lost :
  (∀ k, row_key decimal_int (escape (js_get body_orphan "user_id")) = Some k →
        users db_alice !! k = None)
  ∧ res_status
      (post_tasks decimal_int mysql_message None 50 body_orphan db_alice).1
    = 500
  ∧ tasks (post_tasks decimal_int mysql_message None 50 body_orphan
             db_alice).2 = tasks db_alice.
Proof.
  assert (Horphan : ∀ k,
    row_key decimal_int (escape (js_get body_orphan "user_id")) = Some k →
    users db_alice !! k = None).
  { intros k Hk. vm_compute in Hk. injection Hk as <-.
    vm_compute. reflexivity. }
  split; [exact Horphan|].
  destruct (orphan_task_rejected decimal_int mysql_message None 50
              body_orphan db_alice Horphan) as (H500 & _ & _ & Htasks).
  split; [exact H500 | exact Htasks].
Defined.

Lemma missing_task_reports_success_42 :
  (∀ k, row_key decimal_int (SText "42") = Some k →
        tasks db_report !! k = None)
  ∧ res_status
      (put_task decimal_int mysql_message None 50 "42" body_new_title
         db_report).1 = 200
  ∧ delete_task_req decimal_int mysql_message None 50 "42" db_report
    = (mkResponse 200
         (JObj (<["message" := JStr "Task deleted"]> {[ "id" := JStr "42" ]})),
       db_report).
Proof.
  assert (Hmiss : ∀ k, row_key decimal_int (SText "42") = Some k →
                       tasks db_report !! k = None).
  { intros k Hk. vm_compute in Hk. injection Hk as <-.
    vm_compute. reflexivity. }
  split; [exact Hmiss|].
  destruct (missing_task_reports_success decimal_int mysql_message 50 "42"
              body_new_title db_report Hmiss) as (Hput & Hdel & _).
  split; [by rewrite Hput | exact Hdel].
Defined.


Ltac text_fits := unfold fits; simpl; lia.
Ltac no_text := let s := fresh in let H := fresh in
  intros s H; vm_compute in H;
  first [discriminate H | injection H as <-; text_fits].


Lemma startup_gates_requests_summary :
  startup None None db_alice
    = ([EvCreatePool; EvQuery "users"; EvQuery "tasks"; EvLog;
        EvListen; EvLog], Serving db_alice)
  ∧ (startup None (Some (ConnFault "ETIMEDOUT")) db_alice).2 = Exited 1
  ∧ ¬ (EvListen ∈ (startup None (Some (ConnFault "ETIMEDOUT")) db_alice).1).
Proof.
  split.
  - exact (proj1 (startup_gates_requests decimal_int mysql_message None None
                    db_alice) eq_refl eq_refl).
  - destruct (startup_gates_requests decimal_int mysql_message None
                (Some (ConnFault "ETIMEDOUT")) db_alice) as (_ & Hfail & _).
    destruct Hfail as (Hexit & Hnever & _).
    + right. discriminate.
    + split; [exact Hexit | exact Hnever].
Defined.

(** The store after Alice has signed up and filed one task. *)
Lemma reachable_after_two_posts :
  reachable decimal_int mysql_message
    (handle decimal_int mysql_message None 20 (PostTasks body_with_id)
       (handle decimal_int mysql_message None 10
          (PostUsers body_alice_again) empty_db).2).2.
Proof. do 2 apply reachable_handle. apply reachable_init. Defined.

Lemma tasks_never_outlive_owner_alice :
  let db :=
    (handle decimal_int mysql_message None 20 (PostTasks body_with_id)
       (handle decimal_int mysql_message None 10
          (PostUsers body_alice_again) empty_db).2).2 in
  reachable decimal_int mysql_message db
  ∧ size (tasks db) = 1%nat
  ∧ owners_exist db
  ∧ ∃ db', exec decimal_int 30 (DeleteUser (SInt 1)) db
             = Ok (OkPacket 0 1, db')
           ∧ select_tasks db' = [].
Proof.
  intros db.
  split; [exact reachable_after_two_posts|].
  split; [vm_compute; reflexivity|].
  destruct (tasks_never_outlive_owner decimal_int mysql_message db
              reachable_after_two_posts) as [Hinv Hcascade].
  split; [exact Hinv|].
  destruct (Hcascade 30 1 (mkUser "Alice B" "alice@example.com" 10))
    as (db' & Hexec & _ & _ & _ & _ & Hlist & _).
  { vm_compute. reflexivity. }
  exists db'. split; [exact Hexec|].
  injection Hexec as <-. vm_compute. reflexivity.
Defined.

(** C8. A create-task request that omits [status] and whose body carries a
    field [id]: the task is stored with status [pending] under the generated
    id 1 and the answer is 201, but the [id] of the answer is the one of the
    body, 99, because the body is spread after the generated id. *)
Theorem post_tasks_body_id_replaces_generated_id :
  let out := post_tasks decimal_int mysql_message None 50 body_with_id
               db_alice in
  body_with_id !! "status" = None
  ∧ users db_alice !! 1 = Some alice
  ∧ res_status out.1 = 201
  ∧ tasks out.2 !! next_task_id db_alice
    = Some (mkTask 1 "Buy milk" None (Some pending) 50 50)
  ∧ res_body out.1 = JObj body_with_id
  ∧ body_with_id !! "id" = Some (JNum 99)
  ∧ JNum 99 ≠ JNum (next_task_id db_alice).
Proof. vm_compute. repeat split; discriminate. Qed.



Lemma falsy_status_stored_pending_listed :
  Forall (λ v,
    body_with_status v !! "status" = Some v
    ∧ res_status
        (post_tasks decimal_int mysql_message None 50 (body_with_status v)
           db_alice).1 = 201
    ∧ t_status <$> tasks
        (post_tasks decimal_int mysql_message None 50 (body_with_status v)
           db_alice).2 !! next_task_id db_alice = Some (Some pending))
    [JStr ""; JNull; JBool false; JNum 0].
Proof.
  assert (Hone : ∀ v,
    v = JStr "" ∨ v = JNull ∨ v = JBool false ∨ v = JNum 0 →
    body_with_status v !! "status" = Some v
    ∧ res_status
        (post_tasks decimal_int mysql_message None 50 (body_with_status v)
           db_alice).1 = 201
    ∧ t_status <$> tasks
        (post_tasks decimal_int mysql_message None 50 (body_with_status v)
           db_alice).2 !! next_task_id db_alice = Some (Some pending)).
  { intros v Hlisted.
    assert (Hv : body_with_status v !! "status" = Some v).
    { unfold body_with_status.
      rewrite !lookup_insert_ne by done. apply lookup_singleton_eq. }
    split; [exact Hv|].
    destruct (falsy_status_stored_pending decimal_int mysql_message None 50
                (body_with_status v) db_alice v Hv Hlisted)
      as (_ & _ & _ & _ & _ & Hcreated & _).
    apply (Hcreated 1 alice "Buy milk" eq_refl).
    - vm_compute. reflexivity.
    - vm_compute. reflexivity.
    - vm_compute. reflexivity.
    - text_fits.
    - no_text. }
  repeat constructor; apply Hone; auto.
Defined.

(** The listing of the office store: newest task first, each with its
    owner. *)
Example list_tasks_office :
  select_tasks db_office
  = [mkTaskRow 3 archive "Alice" "alice@example.com";
     mkTaskRow 2 review "Bob" "bob@example.com";
     mkTaskRow 1 report "Alice" "alice@example.com"].
Proof. vm_compute. reflexivity. Qed.

(** Deleting Alice from the office store leaves Bob and his one task. *)
Example delete_alice_office :
  exec decimal_int 50 (DeleteUser (SInt 1)) db_office
  = Ok (OkPacket 0 1, mkDb {[ 2 := bob ]} {[ 2 := review ]} 3 4).
Proof. vm_compute. reflexivity. Qed.

(** A second update with the same columns changes nothing, and so does not
    refresh [updated_at]. *)
Example update_report_completed :
  let body : jsobj :=
    <["title" := JStr "Write report"]>
      (<["description" := JStr "quarterly"]>
         {[ "status" := JStr "completed" ]}) in
  let db1 := (put_task decimal_int mysql_message None 50 "1" body
                db_report).2 in
  tasks db1 !! 1
    = Some (mkTask 1 "Write report" (Some "quarterly") (Some completed) 20 50)
  ∧ (put_task decimal_int mysql_message None 60 "1" body db1).2 = db1.
Proof. vm_compute. split; reflexivity. Qed.

(** ** Further properties on the concrete server *)

(** The store after Alice has signed up. *)
Lemma reachable_after_signup :
  reachable decimal_int mysql_message
    (handle decimal_int mysql_message None 10
       (PostUsers body_alice_again) empty_db).2.
Proof. apply reachable_handle. apply reachable_init. Defined.


Lemma reachable_emails_unique_filed :
  (size (users_with_email "alice@example.com"
           (handle decimal_int mysql_message None 20 (PostTasks body_with_id)
              (handle decimal_int mysql_message None 10
                 (PostUsers body_alice_again) empty_db).2).2) ≤ 1)%nat.
Proof.
  destruct (reachable_emails_unique decimal_int mysql_message _
              reachable_after_two_posts) as [_ Hone].
  apply Hone.
Defined.

Lemma reachable_ids_fresh_filed :
  let db :=
    (handle decimal_int mysql_message None 20 (PostTasks body_with_id)
       (handle decimal_int mysql_message None 10
          (PostUsers body_alice_again) empty_db).2).2 in
  next_task_id db = 2 ∧ tasks db !! next_task_id db = None.
Proof.
  intros db.
  destruct (reachable_ids_fresh decimal_int mysql_message db
              reachable_after_two_posts) as (_ & _ & _ & Hfree).
  split; [vm_compute; reflexivity | exact Hfree].
Defined.

Lemma create_task_round_trip_milk :
  let db :=
    (handle decimal_int mysql_message None 10
       (PostUsers body_alice_again) empty_db).2 in
  users db !! 1 = Some (mkUser "Alice B" "alice@example.com" 10)
  ∧ mkTaskRow 1 (mkTask 1 "Buy milk" None (Some pending) 20 20) "Alice B"
      "alice@example.com"
    ∈ select_tasks
        (post_tasks decimal_int mysql_message None 20 body_with_id db).2.
Proof.
  intros db.
  assert (Hu : users db !! 1
               = Some (mkUser "Alice B" "alice@example.com" 10))
    by (vm_compute; reflexivity).
  split; [exact Hu|].
  destruct (create_task_round_trip decimal_int mysql_message 20 body_with_id
              db 1 (mkUser "Alice B" "alice@example.com" 10) "Buy milk"
              (Some pending))
    as (_ & _ & _ & Hlist).
  - exact reachable_after_signup.
  - vm_compute. reflexivity.
  - exact Hu.
  - vm_compute. reflexivity.
  - text_fits.
  - no_text.
  - vm_compute. reflexivity.
  - apply Hlist. left. vm_compute. reflexivity.
Defined.

Lemma create_task_missing_title_later :
  escape (js_get body_no_title "title") = SNull
  ∧ res_status
      (post_tasks decimal_int mysql_message None 50 body_no_title
         db_alice).1 = 500
  ∧ (post_tasks decimal_int mysql_message None 50 body_no_title db_alice).2
    = db_alice.
Proof.
  assert (Hnull : escape (js_get body_no_title "title") = SNull)
    by (vm_compute; reflexivity).
  split; [exact Hnull|].
  destruct (create_task_missing_title decimal_int mysql_message None 50
              body_no_title db_alice Hnull) as (H500 & Hdb & _).
  split; [exact H500 | exact Hdb].
Defined.


Lemma update_task_round_trip_completed :
  row_key decimal_int (SText "1") = Some 1
  ∧ tasks db_report !! 1 = Some report
  ∧ ∃ row', tasks
      (put_task decimal_int mysql_message None 50 "1" body_completed
         db_report).2 !! 1 = Some row'
    ∧ t_status row' = Some completed
    ∧ t_created_at row' = 20
    ∧ t_updated_at row' = 50.
Proof.
  assert (Hk : row_key decimal_int (SText "1") = Some 1)
    by (vm_compute; reflexivity).
  assert (Hrow : tasks db_report !! 1 = Some report)
    by (vm_compute; reflexivity).
  split; [exact Hk|]. split; [exact Hrow|].
  destruct (update_task_round_trip decimal_int mysql_message 50 "1"
              body_completed db_report 1 report "Write report"
              (Some completed) Hk Hrow)
    as (_ & _ & _ & _ & row' & Hlook & _ & _ & Hst & _ & Hcr & _ & Hup).
  - vm_compute. reflexivity.
  - text_fits.
  - no_text.
  - vm_compute. reflexivity.
  - exists row'. split; [exact Hlook|]. split; [exact Hst|].
    split; [exact Hcr|]. apply Hup.
    intros (_ & _ & Hsame). vm_compute in Hsame. discriminate Hsame.
Defined.

Lemma delete_task_round_trip_report :
  row_key decimal_int (SText "1") = Some 1
  ∧ tasks db_report !! 1 = Some report
  ∧ delete_task_req decimal_int mysql_message None 50 "1" db_report
    = (mkResponse 200
         (JObj (<["message" := JStr "Task deleted"]> {[ "id" := JStr "1" ]})),
       mkDb (users db_report) (delete 1 (tasks db_report)) 2 2).
Proof.
  assert (Hk : row_key decimal_int (SText "1") = Some 1)
    by (vm_compute; reflexivity).
  assert (Hrow : tasks db_report !! 1 = Some report)
    by (vm_compute; reflexivity).
  split; [exact Hk|]. split; [exact Hrow|].
  destruct (delete_task_round_trip decimal_int mysql_message 50 60 "1"
              db_report 1 report Hk Hrow) as (Hdel & _).
  exact Hdel.
Defined.

Lemma api_keeps_users_filed :
  let db :=
    (handle decimal_int mysql_message None 20 (PostTasks body_with_id)
       (handle decimal_int mysql_message None 10
          (PostUsers body_alice_again) empty_db).2).2 in
  users db !! 1 = Some (mkUser "Alice B" "alice@example.com" 10)
  ∧ users (handle decimal_int mysql_message None 30 (DeleteTaskReq "1")
             db).2 !! 1
    = Some (mkUser "Alice B" "alice@example.com" 10).
Proof.
  intros db.
  assert (Hu : users db !! 1
               = Some (mkUser "Alice B" "alice@example.com" 10))
    by (vm_compute; reflexivity).
  split; [exact Hu|].
  destruct (api_keeps_users decimal_int mysql_message None 30
              (DeleteTaskReq "1") db reachable_after_two_posts)
    as [Hkept _].
  apply Hkept. exact Hu.
Defined.

Lemma api_keeps_task_identity_filed :
  let db :=
    (handle decimal_int mysql_message None 20 (PostTasks body_with_id)
       (handle decimal_int mysql_message None 10
          (PostUsers body_alice_again) empty_db).2).2 in
  tasks db !! 1 = Some (mkTask 1 "Buy milk" None (Some pending) 20 20)
  ∧ match tasks (handle decimal_int mysql_message None 30
                   (PutTask "1" body_new_title) db).2 !! 1 with
    | Some t' => t_user_id t' = 1 ∧ t_created_at t' = 20
    | None => ∃ id, PutTask "1" body_new_title = DeleteTaskReq id
                    ∧ row_key decimal_int (SText id) = Some 1
    end.
Proof.
  intros db.
  assert (Ht : tasks db !! 1
               = Some (mkTask 1 "Buy milk" None (Some pending) 20 20))
    by (vm_compute; reflexivity).
  split; [exact Ht|].
  exact (api_keeps_task_identity decimal_int mysql_message None 30
           (PutTask "1" body_new_title) db 1 _ reachable_after_two_posts Ht).
Defined.

Lemma create_user_missing_field_later :
  escape (js_get body_no_title "name") = SNull
  ∧ post_users decimal_int mysql_message None 50 body_no_title db_alice
    = (mkResponse 500
         (JObj {[ "error" := JStr "Column 'name' cannot be null" ]}),
       db_alice).
Proof.
  assert (Hnull : escape (js_get body_no_title "name") = SNull)
    by (vm_compute; reflexivity).
  split; [exact Hnull|].
  destruct (create_user_missing_field decimal_int mysql_message 50
              body_no_title db_alice) as [Hname _].
  rewrite (Hname Hnull). vm_compute. reflexivity.
Defined.

(** ** Configuration of the pool *)

Lemma js_or_env_text env k d :
  d ≠ "" →
  ∃ s, js_or (env_get env k) (JStr d) = JStr s ∧ s ≠ ""
       ∧ (s = d ∨ env !! k = Some s).
Proof.
  intros Hd. unfold js_or, env_get.
  destruct (env !! k) as [v|] eqn:Hk; simpl; [|eauto].
  destruct (String.eqb_spec v ""); simpl; [eauto|eauto].
Qed.

(** X13. Whatever the environment, the pool is configured with four
    non-empty texts, each the variable's value or the built-in default, and
    with certificate verification off. *)
Theorem dbConfig_never_empty env :
  ∃ h u p d,
    dbConfig env = mkDbConfig (JStr h) (JStr u) (JStr p) (JStr d) false
    ∧ h ≠ "" ∧ u ≠ "" ∧ p ≠ "" ∧ d ≠ ""
    ∧ (h = "host.wsl.internal" ∨ env !! "MYSQL_SERVER" = Some h)
    ∧ (u = "adminstudent" ∨ env !! "MYSQL_USERNAME" = Some u)
    ∧ (p = "admin" ∨ env !! "MYSQL_PASSWORD" = Some p)
    ∧ (d = "taskdb" ∨ env !! "MYSQL_DATABASE" = Some d).
Proof.
  destruct (js_or_env_text env "MYSQL_SERVER" "host.wsl.internal")
    as (h & Hh & ? & ?); [done|].
  destruct (js_or_env_text env "MYSQL_USERNAME" "adminstudent")
    as (u & Hu & ? & ?); [done|].
  destruct (js_or_env_text env "MYSQL_PASSWORD" "admin")
    as (p & Hp & ? & ?); [done|].
  destruct (js_or_env_text env "MYSQL_DATABASE" "taskdb")
    as (d & Hd & ? & ?); [done|].
  exists h, u, p, d. unfold dbConfig. rewrite Hh, Hu, Hp, Hd. done.
Qed.

Lemma js_or_env_blank env k j d :
  js_or (env_get (<[k := ""]> env) j) d = js_or (env_get (delete k env) j) d.
Proof.
  unfold js_or, env_get. rewrite lookup_insert, lookup_delete.
  by case_decide.
Qed.

Lemma js_or_env_other env k v j d :
  k ≠ j → js_or (env_get (<[k := v]> env) j) d = js_or (env_get env j) d.
Proof. intros Hne. unfold env_get. by rewrite lookup_insert_ne. Qed.

(** X14. A variable set to the empty text counts as unset, for the pool and
    for the port; a variable set to a non-empty text is used as it is; and
    no variable other than the five the file reads has any effect. *)
Theorem config_reads_environment env k v :
  dbConfig (<[k := ""]> env) = dbConfig (delete k env)
  ∧ PORT (<[k := ""]> env) = PORT (delete k env)
  ∧ (v ≠ "" →
     host (dbConfig (<["MYSQL_SERVER" := v]> env)) = JStr v
     ∧ user (dbConfig (<["MYSQL_USERNAME" := v]> env)) = JStr v
     ∧ password (dbConfig (<["MYSQL_PASSWORD" := v]> env)) = JStr v
     ∧ database (dbConfig (<["MYSQL_DATABASE" := v]> env)) = JStr v
     ∧ PORT (<["PORT" := v]> env) = JStr v)
  ∧ (k ∉ server_variables →
     dbConfig (<[k := v]> env) = dbConfig env
     ∧ PORT (<[k := v]> env) = PORT env).
Proof.
  split; [|split; [|split]].
  - unfold dbConfig. by rewrite !js_or_env_blank.
  - unfold PORT. by rewrite js_or_env_blank.
  - intros Hv. unfold dbConfig, PORT, js_or, env_get. simpl.
    rewrite !lookup_insert_eq. simpl.
    destruct (String.eqb_spec v ""); done.
  - intros Hk. unfold server_variables in Hk.
    rewrite !not_elem_of_cons in Hk.
    destruct Hk as (? & ? & ? & ? & ? & _).
    unfold dbConfig, PORT. by rewrite !js_or_env_other.
Qed.

Lemma config_reads_environment_example :
  host (dbConfig {[ "MYSQL_SERVER" := "db.internal" ]}) = JStr "db.internal"
  ∧ dbConfig (<["LANG" := "C"]> ∅) = dbConfig ∅
  ∧ PORT (<["PORT" := ""]> ∅) = JNum 8080.
Proof.
  destruct (config_reads_environment ∅ "LANG" "C") as (_ & _ & _ & Hother).
  destruct (config_reads_environment ∅ "PORT" "db.internal")
    as (_ & Hblank & Hset & _).
  split; [|split].
  - apply Hset. discriminate.
  - apply Hother. unfold server_variables.
    rewrite !not_elem_of_cons. repeat split; try discriminate.
    apply not_elem_of_nil.
  - rewrite Hblank. vm_compute. reflexivity.
Defined.

(** ** The deployment script *)

Lemma text_of_Z_four_digits n :
  1000 ≤ n ≤ 9999 → String.length (text_of_Z n) = 4%nat.
Proof.
  intros Hn.
  assert (Hall : Forall (λ m, String.length (text_of_Z m) = 4%nat)
                   (seqZ 1000 9000)).
  { apply (bool_decide_unpack _). vm_compute. exact I. }
  rewrite Forall_seqZ in Hall. apply Hall. lia.
Qed.

(** X16. [$RANDOM] being between 0 and 32767, the suffix of the resource
    names is a number from 1000 to 9999, so always four digits: the names
    of the database server, the web app, the storage account and the key
    vault have 13, 18, 17 and 18 characters.  Every suffix from 1000 to 9999
    can be drawn. *)
Theorem randomSuffix_four_digits :
  (∀ R, 0 ≤ R < 32768 →
     1000 ≤ randomSuffix R ≤ 9999
     ∧ String.length (text_of_Z (randomSuffix R)) = 4%nat
     ∧ String.length (mysqlServerName (randomSuffix R)) = 13%nat
     ∧ String.length (webAppName (randomSuffix R)) = 18%nat
     ∧ String.length (storageAccountName (randomSuffix R)) = 17%nat
     ∧ String.length (keyVaultName (randomSuffix R)) = 18%nat)
  ∧ (∀ s, 1000 ≤ s ≤ 9999 → ∃ R, 0 ≤ R < 32768 ∧ randomSuffix R = s).
Proof.
  split.
  - intros R HR.
    assert (Hrange : 1000 ≤ randomSuffix R ≤ 9999).
    { unfold randomSuffix.
      pose proof (Z.rem_bound_pos R 9000 ltac:(lia) ltac:(lia)). lia. }
    pose proof (text_of_Z_four_digits _ Hrange) as Hlen.
    split; [exact Hrange|]. split; [exact Hlen|].
    unfold mysqlServerName, webAppName, storageAccountName, keyVaultName.
    revert Hlen. generalize (text_of_Z (randomSuffix R)). intros t Ht.
    simpl. change ("" +:+ t) with t. rewrite Ht. done.
  - intros s Hs. exists (s - 1000). split; [lia|].
    unfold randomSuffix. rewrite Z.rem_small by lia. lia.
Qed.

Lemma randomSuffix_four_digits_example :
  randomSuffix 32767 = 6767
  ∧ storageAccountName (randomSuffix 32767) = "sttaskmanager6767"
  ∧ ∃ R, 0 ≤ R < 32768 ∧ randomSuffix R = 9999.
Proof.
  destruct randomSuffix_four_digits as [Hdigits Hdrawn].
  destruct (Hdigits 32767) as (_ & _ & _); [lia|].
  split; [reflexivity|]. split; [reflexivity|].
  apply Hdrawn. lia.
Defined.

Ltac unfold_script :=
  cbv [deployment script provision deploy_app monitor mbind sh_bind mret
       sh_ret run ask exit_with if_succeeds].

(** One command of the script: it succeeded or it failed. *)
Ltac script_step w :=
  cbv beta iota;
  match goal with
  | |- context [succeeds w ?c] => destruct (succeeds w c) eqn:?
  end.

(** Every way the script can go. *)
Ltac script_cases w :=
  unfold required_commands, monitor_commands; unfold_script;
  destruct (ssh_key_present w) eqn:?, (app_zip_present w) eqn:?;
  cbv [negb];
  repeat script_step w; cbv beta iota; simpl.

Ltac in_list :=
  solve [rewrite list_elem_of_In; simpl;
         repeat (first [left; reflexivity | right])].

(** X17. The script runs to its last line exactly when every command of
    steps 1 to 10 succeeds, [app.zip] is there, and, if Application
    Insights could be created, the two commands that follow it succeed; a
    failure to create Application Insights does not stop it.  It has then
    run the commands of the ten steps and of the monitoring block, in the
    order of the script. *)
Theorem deployment_completes w :
  ((deployment w).2 = Completed ↔
     Forall (λ c, succeeds w c = true) (required_commands w)
     ∧ app_zip_present w = true
     ∧ Forall (λ c, succeeds w c = true) (tail (monitor_commands w)))
  ∧ ((deployment w).2 = Completed →
     (deployment w).1 = (required_commands w ++ monitor_commands w)%list).
Proof.
  split; [split|].
  - script_cases w; intros Hdone; try discriminate Hdone;
      (split; [|split; [done|]]); repeat constructor; try assumption.
  - intros (Hreq & Hzip & Hmon). rewrite Forall_forall in Hreq, Hmon.
    revert Hreq Hzip Hmon. script_cases w; intros Hreq Hzip Hmon;
      try discriminate Hzip; try reflexivity; exfalso;
      match goal with
      | H : succeeds w ?c = false |- _ =>
          first [ rewrite (Hreq c) in H; [discriminate | in_list]
                | rewrite (Hmon c) in H; [discriminate | in_list] ]
      end.
  - script_cases w; intros Hdone; try discriminate Hdone; reflexivity.
Qed.

Ltac which_command H :=
  rewrite list_elem_of_In in H; simpl in H;
  repeat (destruct H as [<-|H]); [..|destruct H].

(** X18. Under [set -e] nothing runs after a failure: the commands the
    script ran are an initial part of the commands of the ten steps and the
    monitoring block, a command that failed is the last one that ran, and
    when the script ends on a failed command it ends with that command's
    status; the only explicit exit is [exit 1], for a missing [app.zip]. *)
Theorem deployment_stops_at_failure w :
  (deployment w).1
    `prefix_of` (required_commands w ++ monitor_commands w)%list
  ∧ (∀ c, c ∈ (deployment w).1 → succeeds w c = false →
          last (deployment w).1 = Some c)
  ∧ (∀ c, (deployment w).2 = Errexit c →
          succeeds w c = false ∧ last (deployment w).1 = Some c)
  ∧ (∀ n, (deployment w).2 = Exit n → n = 1 ∧ app_zip_present w = false).
Proof.
  script_cases w; (split; [|split; [|split]]).
  all: try (eexists; reflexivity).
  all: try (intros c [= <-]; split; [assumption | reflexivity]).
  all: try (intros n [= <-]; split; reflexivity).
  all: try (intros c Hin Hfail; which_command Hin;
            first [reflexivity | congruence]).
Qed.

(** X19. Without [app.zip] the script never completes, never pushes the
    application and never reaches the monitoring block; when everything
    else succeeds it ends with [exit 1] after creating every resource. *)
Theorem deployment_without_zip w :
  app_zip_present w = false →
  (deployment w).2 ≠ Completed
  ∧ (∀ c, c ∈ (deployment w).1 →
          (∀ app src, c ≠ AzDeployZip app src)
          ∧ (∀ app, c ≠ AzInsightsCreate app))
  ∧ (Forall (λ c, succeeds w c = true) (removelast (required_commands w)) →
     deployment w = (removelast (required_commands w), Exit 1)).
Proof.
  intros Hzip. revert Hzip.
  script_cases w; intros Hzip; try discriminate Hzip;
    (split; [discriminate|split]).
  all: try (intros c Hin; which_command Hin; split; intros; discriminate).
  all: try reflexivity.
  all: intros Hreq; rewrite Forall_forall in Hreq; exfalso;
    match goal with
    | H : succeeds _ ?c = false |- _ =>
        rewrite (Hreq c) in H; [discriminate | in_list]
    end.
Qed.

Lemma env_text_used env k v d :
  env !! k = Some v → v ≠ "" → js_or (env_get env k) d = JStr v.
Proof.
  intros Hk Hv. unfold js_or, env_get. rewrite Hk. simpl.
  by destruct (String.eqb_spec v "").
Qed.

(** X20. If the platform gives the application, for each app setting the
    script wrote, the value of the secret the setting refers to, and the
    database server reported a name, then the pool of [server.js] is
    configured with that server name and with the administrator, password
    and database the script created the server with. *)
Theorem deployed_settings_configure_pool suffix mysqlFqdn env :
  (∀ k secret value,
     (k, keyVaultReference suffix secret) ∈ appSettings suffix →
     (secret, value) ∈ secrets mysqlFqdn →
     env !! k = Some value) →
  mysqlFqdn ≠ "" →
  dbConfig env
    = mkDbConfig (JStr mysqlFqdn) (JStr mysqlAdminUser)
        (JStr mysqlAdminPassword) (JStr mysqlDatabase) false.
Proof.
  intros Hresolved Hfqdn.
  assert (Hserver : env !! "MYSQL_SERVER" = Some mysqlFqdn).
  { apply (Hresolved _ "mysql-server"); in_list. }
  assert (Huser : env !! "MYSQL_USERNAME" = Some mysqlAdminUser).
  { apply (Hresolved _ "mysql-username"); in_list. }
  assert (Hpass : env !! "MYSQL_PASSWORD" = Some mysqlAdminPassword).
  { apply (Hresolved _ "mysql-password"); in_list. }
  assert (Hdb : env !! "MYSQL_DATABASE" = Some mysqlDatabase).
  { apply (Hresolved _ "mysql-database"); in_list. }
  unfold dbConfig.
  rewrite (env_text_used _ _ _ _ Hserver Hfqdn).
  rewrite (env_text_used _ _ _ _ Huser) by done.
  rewrite (env_text_used _ _ _ _ Hpass) by done.
  by rewrite (env_text_used _ _ _ _ Hdb).
Qed.

Lemma deployment_completes_all_good :
  deployment world_all_good
  = ((required_commands world_all_good
      ++ monitor_commands world_all_good)%list, Completed).
Proof.
  destruct (deployment_completes world_all_good) as [Hiff Htrace].
  assert (Hdone : (deployment world_all_good).2 = Completed).
  { apply Hiff. split; [|split]; [|reflexivity|];
      apply Forall_forall; intros c _; reflexivity. }
  rewrite <- (Htrace Hdone), <- Hdone.
  by destruct (deployment world_all_good).
Defined.

Lemma deployment_without_zip_no_zip :
  app_zip_present world_no_zip = false
  ∧ deployment world_no_zip
    = (removelast (required_commands world_no_zip), Exit 1).
Proof.
  split; [reflexivity|].
  destruct (deployment_without_zip world_no_zip eq_refl) as (_ & _ & Hexit).
  apply Hexit. apply Forall_forall. intros c _. reflexivity.
Defined.

Lemma deployed_settings_configure_pool_1234 :
  (∀ k secret value,
     (k, keyVaultReference 1234 secret) ∈ appSettings 1234 →
     (secret, value) ∈ secrets "taskmysql1234.mysql.database.azure.com" →
     env_deployed !! k = Some value)
  ∧ dbConfig env_deployed
    = mkDbConfig (JStr "taskmysql1234.mysql.database.azure.com")
        (JStr "adminstudent") (JStr "admin") (JStr "taskdb") false.
Proof.
  assert (Hresolved : ∀ k secret value,
     (k, keyVaultReference 1234 secret) ∈ appSettings 1234 →
     (secret, value) ∈ secrets "taskmysql1234.mysql.database.azure.com" →
     env_deployed !! k = Some value).
  { intros k secret value Hset Hsec.
    rewrite list_elem_of_In in Hsec. simpl in Hsec.
    rewrite list_elem_of_In in Hset.
    repeat (destruct Hsec as [Hsec|Hsec];
            [injection Hsec as <- <-; vm_compute in Hset;
             repeat (destruct Hset as [Hset|Hset];
                     [try discriminate Hset;
                      injection Hset as <-; vm_compute; reflexivity|]);
             destruct Hset|]).
    destruct Hsec. }
  split; [exact Hresolved|].
  apply (deployed_settings_configure_pool 1234 _ _ Hresolved).
  discriminate.
Defined.

Lemma deployment_stops_at_failure_vnet :
  (deployment world_vnet_down).2 = Errexit AzVnetCreate
  ∧ succeeds world_vnet_down AzVnetCreate = false
  ∧ last (deployment world_vnet_down).1 = Some AzVnetCreate
  ∧ length (deployment world_vnet_down).1 = 2%nat.
Proof.
  assert (Hend : (deployment world_vnet_down).2 = Errexit AzVnetCreate)
    by (vm_compute; reflexivity).
  split; [exact Hend|].
  destruct (deployment_stops_at_failure world_vnet_down)
    as (_ & _ & Herrexit & _).
  destruct (Herrexit AzVnetCreate Hend) as [Hfail Hlast].
  split; [exact Hfail|]. split; [exact Hlast|].
  vm_compute. reflexivity.
Defined.
